(** * A shallow embedding of [app.py], the storefront application

    The Flask application keeps a catalogue and the orders in a SQLite
    file and the shopping cart in the client session.  The embedding
    follows the source function by function:

    - Python dictionaries are insertion-ordered association lists
      ([PyDict]), because [view_cart] renders the cart in iteration
      order;
    - Python integers are [Z];
    - the SQLite file is an optional [database] (absent while [DB_PATH]
      does not exist) whose three tables may or may not have been
      created yet; ids are AUTOINCREMENT ids of 64 bits, and a [with]
      block commits or rolls back the transaction its INSERT opened;
    - view functions run in a state-and-exception monad over the
      [world] (database file and session); an uncaught Python exception
      is the outcome [Raise];
    - between two requests the session travels through the cookie,
      which sorts the keys of its dictionaries. *)

From Stdlib Require Import ZArith List String Ascii Bool Lia.
From Stdlib Require Import Permutation Sorted.
Import ListNotations.
Open Scope string_scope.
Open Scope list_scope.
Open Scope Z_scope.

(** ** Python dictionaries with string keys *)

Module PyDict.

(** Entries in insertion order.  Every dictionary the program builds has
    pairwise distinct keys ([wf]); the operations are total on lists. *)
Definition dict (V : Type) : Type := list (string * V).

Definition wf {V} (d : dict V) : Prop := NoDup (map fst d).

(** [d.get(k)] *)
Fixpoint get {V} (k : string) (d : dict V) : option V :=
  match d with
  | [] => None
  | (k', v) :: rest => if String.eqb k k' then Some v else get k rest
  end.

(** [k in d] *)
Definition contains {V} (k : string) (d : dict V) : bool :=
  match get k d with Some _ => true | None => false end.

(** [d[k] = v]: an existing key keeps its position, a new key goes last. *)
Fixpoint set {V} (k : string) (v : V) (d : dict V) : dict V :=
  match d with
  | [] => [(k, v)]
  | (k', v') :: rest =>
      if String.eqb k k' then (k, v) :: rest else (k', v') :: set k v rest
  end.

(** [d.pop(k, None)]: the entry for [k] is dropped, the others keep their
    order. *)
Fixpoint pop {V} (k : string) (d : dict V) : dict V :=
  match d with
  | [] => []
  | (k', v') :: rest =>
      if String.eqb k k' then pop k rest else (k', v') :: pop k rest
  end.

(** [d.values()] and [d.items()] *)
Definition values {V} (d : dict V) : list V := map snd d.
Definition items {V} (d : dict V) : list (string * V) := d.

(** [not d] *)
Definition is_empty {V} (d : dict V) : bool :=
  match d with [] => true | _ :: _ => false end.

End PyDict.

Import PyDict.

(** [sum(xs)] over Python integers. *)
Definition py_sum (xs : list Z) : Z := fold_left Z.add xs 0.

(** ** The builtin [int(str)]

    A Python [str] is kept as its UTF-8 bytes.  [int] first rewrites the
    text to ASCII: a character below 127 stays, any other white-space
    character becomes a blank and any other decimal digit its ASCII digit
    (tables of Unicode 14.0, the ones of CPython 3.11).  What is left must
    be: blanks, an optional sign, decimal digits that may be separated by
    single underscores, blanks.  More than 4300 digits are refused.  Every
    failure is a [ValueError], rendered here as [None]. *)

Definition byte (c : ascii) : Z := Z.of_nat (nat_of_ascii c).

Definition continuation (c : ascii) : option Z :=
  let b := byte c in
  if (128 <=? b) && (b <=? 191) then Some (b - 128) else None.

Definition scalar_value (lo hi cp : Z) : option Z :=
  if (lo <=? cp) && (cp <=? hi) && negb ((55296 <=? cp) && (cp <=? 57343))
  then Some cp else None.

(** The code points of a UTF-8 text; [None] for bytes that encode no
    text. *)
Fixpoint utf8_decode (s : string) : option (list Z) :=
  match s with
  | EmptyString => Some []
  | String c0 rest =>
      let b0 := byte c0 in
      if b0 <? 128 then option_map (cons b0) (utf8_decode rest)
      else if (194 <=? b0) && (b0 <=? 223) then
        match rest with
        | String c1 rest1 =>
            match continuation c1 with
            | Some x1 =>
                option_map (cons ((b0 - 192) * 64 + x1)) (utf8_decode rest1)
            | None => None
            end
        | EmptyString => None
        end
      else if (224 <=? b0) && (b0 <=? 239) then
        match rest with
        | String c1 (String c2 rest2) =>
            match continuation c1, continuation c2 with
            | Some x1, Some x2 =>
                match scalar_value 2048 65535
                        ((b0 - 224) * 4096 + x1 * 64 + x2) with
                | Some cp => option_map (cons cp) (utf8_decode rest2)
                | None => None
                end
            | _, _ => None
            end
        | _ => None
        end
      else if (240 <=? b0) && (b0 <=? 244) then
        match rest with
        | String c1 (String c2 (String c3 rest3)) =>
            match continuation c1, continuation c2, continuation c3 with
            | Some x1, Some x2, Some x3 =>
                match scalar_value 65536 1114111
                        ((b0 - 240) * 262144 + x1 * 4096 + x2 * 64 + x3) with
                | Some cp => option_map (cons cp) (utf8_decode rest3)
                | None => None
                end
            | _, _, _ => None
            end
        | _ => None
        end
      else None
  end.

(** The white-space characters from 127 up ([str.isspace]). *)
Definition unicode_spaces : list Z :=
  [ 133; 160; 5760; 8192; 8193; 8194; 8195; 8196; 8197; 8198; 8199; 8200;
    8201; 8202; 8232; 8233; 8239; 8287; 12288 ].

(** The code points of the digit zero of every decimal script; the nine
    that follow each are its digits one to nine. *)
Definition decimal_zeros : list Z :=
  [ 48; 1632; 1776; 1984; 2406; 2534; 2662; 2790; 2918; 3046; 3174; 3302;
    3430; 3558; 3664; 3792; 3872; 4160; 4240; 6112; 6160; 6470; 6608; 6784;
    6800; 6992; 7088; 7232; 7248; 42528; 43216; 43264; 43472; 43504; 43600;
    44016; 65296; 66720; 68912; 69734; 69872; 69942; 70096; 70384; 70736;
    70864; 71248; 71360; 71472; 71904; 72016; 72784; 73040; 73120; 92768;
    92864; 93008; 120782; 120792; 120802; 120812; 120822; 123200; 123632;
    125264; 130032 ].

Definition unicode_space (cp : Z) : bool :=
  existsb (Z.eqb cp) unicode_spaces.

Definition decimal_value (cp : Z) : option Z :=
  match find (fun z => (z <=? cp) && (cp <=? z + 9)) decimal_zeros with
  | Some z => Some (cp - z)
  | None => None
  end.

(** The ASCII character [int] reads for a code point. *)
Definition to_ascii (cp : Z) : Z :=
  if cp <? 127 then cp
  else if unicode_space cp then 32
  else match decimal_value cp with
       | Some d => 48 + d
       | None => 63
       end.

(** The blanks [int] skips around a literal: tab to carriage return, and
    the space. *)
Definition is_space (c : Z) : bool :=
  ((9 <=? c) && (c <=? 13)) || (c =? 32).

Definition digit_of (c : Z) : option Z :=
  if (48 <=? c) && (c <=? 57) then Some (c - 48) else None.

Fixpoint skip_spaces (l : list Z) : list Z :=
  match l with
  | c :: rest => if is_space c then skip_spaces rest else l
  | [] => []
  end.

(** The run of digits and underscores at the head of [l]: its value, the
    number of its digits and what follows it; [None] for two underscores
    in a row or an underscore at its end. *)
Fixpoint scan_digits (acc : Z) (digits : Z) (after_underscore : bool)
    (l : list Z) : option (Z * Z * list Z) :=
  match l with
  | c :: rest =>
      match digit_of c with
      | Some d => scan_digits (10 * acc + d) (digits + 1) false rest
      | None =>
          if c =? 95 then
            if after_underscore then None
            else scan_digits acc digits true rest
          else if after_underscore then None
          else Some (acc, digits, l)
      end
  | [] => if after_underscore then None else Some (acc, digits, [])
  end.

Definition int_max_str_digits : Z := 4300.

Definition unsigned_literal (l : list Z) : option Z :=
  match l with
  | 95 :: _ => None
  | _ =>
      match scan_digits 0 0 false l with
      | Some (n, digits, rest) =>
          if (digits =? 0) || (int_max_str_digits <? digits) then None
          else match skip_spaces rest with
               | [] => Some n
               | _ :: _ => None
               end
      | None => None
      end
  end.

Definition ascii_literal (l : list Z) : option Z :=
  match skip_spaces l with
  | 43 :: rest => unsigned_literal rest
  | 45 :: rest => option_map Z.opp (unsigned_literal rest)
  | body => unsigned_literal body
  end.

Definition py_int (s : string) : option Z :=
  match utf8_decode s with
  | Some cps => ascii_literal (map to_ascii cps)
  | None => None
  end.

(** ** Python values found in the session *)

(** The session is a signed cookie: whatever sits under a key was put
    there by the application or is some other JSON value.  A stored cart
    has the type the source annotates, [dict[str, int]]. *)
Inductive pyval : Type :=
| PNone
| PBool (b : bool)
| PInt (n : Z)
| PStr (s : string)
| PList (l : list Z)
| PDict (d : dict Z).

(** ** The relational store *)

(** A table with an [INTEGER PRIMARY KEY AUTOINCREMENT] column: the rows
    in storage order, each with its id, and the largest id ever handed
    out (SQLite's [sqlite_sequence]). *)
Record table (R : Type) : Type := mkTable {
  rows : list (Z * R);
  seq : Z
}.
Arguments mkTable {R} _ _.
Arguments rows {R} _.
Arguments seq {R} _.

Record product_columns : Type := mkProductColumns {
  col_name : string;
  col_description : string;
  col_price : Z;
  col_image_url : string
}.

Record order_columns : Type := mkOrderColumns {
  col_created_at : string
}.

Record order_item_columns : Type := mkOrderItemColumns {
  col_order_id : Z;
  col_product_id : Z;
  col_quantity : Z
}.

(** The contents of [store.db]; a table is [None] until it is created. *)
Record database : Type := mkDatabase {
  products : option (table product_columns);
  orders : option (table order_columns);
  order_items : option (table order_item_columns)
}.

(** What [sqlite3.connect] creates when the file does not exist. *)
Definition empty_database : database := mkDatabase None None None.

Definition empty_table {R} : table R := mkTable [] 0.

(** The largest id a table can hold: SQLite ids are signed 64-bit. *)
Definition rowid_limit : Z := 2 ^ 63 - 1.

(** The largest id among the rows, if there is a row. *)
Fixpoint largest_rowid {R} (rs : list (Z * R)) : option Z :=
  match rs with
  | [] => None
  | r :: rest =>
      Some (match largest_rowid rest with
            | Some m => Z.max (fst r) m
            | None => fst r
            end)
  end.

(** AUTOINCREMENT takes no further row once the largest id in the table,
    or the largest id ever handed out, is the limit: the insert fails
    with "database or disk is full". *)
Definition table_full {R} (t : table R) : bool :=
  match largest_rowid (rows t) with
  | Some m => rowid_limit <=? m
  | None => false
  end || (rowid_limit <=? seq t).

(** The id that AUTOINCREMENT gives to the next row: one more than the
    largest id in the table (1 in an empty table), and more than any id
    handed out before. *)
Definition next_rowid {R} (t : table R) : Z :=
  Z.max (match largest_rowid (rows t) with
         | Some m => m + 1
         | None => 1
         end) (seq t + 1).

Definition insert_row {R} (r : R) (t : table R) : table R :=
  let i := next_rowid t in mkTable (rows t ++ [(i, r)]) i.

Definition insert_rows {R} (rs : list R) (t : table R) : table R :=
  fold_left (fun t r => insert_row r t) rs t.

(** One insert per row, stopping at the first that finds the table full;
    the rows inserted until then stay in the table. *)
Fixpoint insert_each {R} (rs : list R) (t : table R) : bool * table R :=
  match rs with
  | [] => (true, t)
  | r :: rest =>
      if table_full t then (false, t) else insert_each rest (insert_row r t)
  end.

(** SQLite integers are 64-bit; [sqlite3] refuses to bind a larger Python
    integer. *)
Definition fits_int64 (n : Z) : bool :=
  (- 2 ^ 63 <=? n) && (n <=? 2 ^ 63 - 1).

(** ** Outcomes and the monad of view functions *)

Inductive exn : Type :=
| ValueError
| OverflowError
| OperationalError.

Inductive result (A : Type) : Type :=
| Ok (a : A)
| Raise (e : exn).
Arguments Ok {A} _.
Arguments Raise {A} _.

(** State passing with exceptions; the state survives an exception. *)
Definition ST (S A : Type) : Type := S -> result A * S.

Definition ret {S A} (a : A) : ST S A := fun s => (Ok a, s).

Definition raise {S A} (e : exn) : ST S A := fun s => (Raise e, s).

Definition bind {S A B} (m : ST S A) (f : A -> ST S B) : ST S B :=
  fun s =>
    match m s with
    | (Ok a, s') => f a s'
    | (Raise e, s') => (Raise e, s')
    end.

Definition gets {S A} (f : S -> A) : ST S A := fun s => (Ok (f s), s).

Definition modify {S} (f : S -> S) : ST S unit := fun s => (Ok tt, f s).

Declare Scope st_scope.
Delimit Scope st_scope with st.
Notation "x <- m ;; k" := (bind m (fun x => k))
  (at level 61, m at next level, right associativity) : st_scope.
Notation "m ;;; k" := (bind m (fun _ => k))
  (at level 61, right associativity) : st_scope.
Open Scope st_scope.

(** ** The world a request runs in *)

Record world : Type := mkWorld {
  db_file : option database;      (* [None] while [DB_PATH] does not exist *)
  session : dict pyval
}.

Definition M (A : Type) : Type := ST world A.

(** [get_connection()]: connecting creates the file when it is missing. *)
Definition get_connection (w : world) : database :=
  match db_file w with
  | Some db => db
  | None => empty_database
  end.

(** An open [sqlite3] connection: the database as committed, the database
    as the statements run so far have left it, and whether a transaction
    is open. *)
Record connection : Type := mkConnection {
  committed : database;
  working : database;
  in_transaction : bool
}.

(** [sqlite3] opens a transaction before an INSERT; a CREATE TABLE or a
    SELECT outside a transaction takes effect at once. *)
Inductive statement_kind : Type := DDL | DQL | DML.

(** [connection.execute(sql)] and [connection.executemany(sql, rows)],
    for a statement given by its effect on the database. *)
Definition execute {A} (kind : statement_kind) (statement : ST database A)
  : ST connection A :=
  fun c =>
    let (r, db) := statement (working c) in
    match kind, in_transaction c with
    | DML, _ | _, true => (r, mkConnection (committed c) db true)
    | _, false => (r, mkConnection db db false)
    end.

(** [with get_connection() as connection: body]: leaving the block
    commits, and an exception inside it rolls the open transaction
    back. *)
Definition with_connection {A} (body : ST connection A) : M A :=
  fun w =>
    let db := get_connection w in
    match body (mkConnection db db false) with
    | (Ok a, c) => (Ok a, mkWorld (Some (working c)) (session w))
    | (Raise e, c) => (Raise e, mkWorld (Some (committed c)) (session w))
    end.

(** *** The SQL statements of the program *)

Definition create_products_if_not_exists : ST database unit :=
  modify (fun db =>
    match products db with
    | Some _ => db
    | None => mkDatabase (Some empty_table) (orders db) (order_items db)
    end).

Definition create_orders_if_not_exists : ST database unit :=
  modify (fun db =>
    match orders db with
    | Some _ => db
    | None => mkDatabase (products db) (Some empty_table) (order_items db)
    end).

Definition create_order_items_if_not_exists : ST database unit :=
  modify (fun db =>
    match order_items db with
    | Some _ => db
    | None => mkDatabase (products db) (orders db) (Some empty_table)
    end).

(** [SELECT COUNT( * ) FROM products] *)
Definition count_products : ST database Z :=
  fun db =>
    match products db with
    | Some t => (Ok (Z.of_nat (List.length (rows t))), db)
    | None => (Raise OperationalError, db)
    end.

(** [INSERT INTO products (name, description, price, image_url) VALUES ...],
    once per tuple. *)
Definition insert_products (rs : list product_columns) : ST database unit :=
  fun db =>
    match products db with
    | Some t =>
        let (done, t') := insert_each rs t in
        (if done then Ok tt else Raise OperationalError,
         mkDatabase (Some t') (orders db) (order_items db))
    | None => (Raise OperationalError, db)
    end.

(** [SELECT * FROM products] *)
Definition select_products : ST database (list (Z * product_columns)) :=
  fun db =>
    match products db with
    | Some t => (Ok (rows t), db)
    | None => (Raise OperationalError, db)
    end.

(** [SELECT * FROM products WHERE id = ?], then [fetchone()]. *)
Definition row_with_id {R} (i : Z) (rs : list (Z * R)) : option (Z * R) :=
  find (fun r => Z.eqb (fst r) i) rs.

(** The statement is prepared, which needs the table, before the
    parameter is bound, which needs an integer of 64 bits. *)
Definition select_product (product_id : Z)
  : ST database (option (Z * product_columns)) :=
  fun db =>
    match products db with
    | Some t =>
        if fits_int64 product_id
        then (Ok (row_with_id product_id (rows t)), db)
        else (Raise OverflowError, db)
    | None => (Raise OperationalError, db)
    end.

(** [INSERT INTO orders (created_at) VALUES (datetime('now'))]; [now] is
    what the store's clock reads. *)
Definition insert_order (now : string) : ST database unit :=
  fun db =>
    match orders db with
    | Some t =>
        if table_full t then (Raise OperationalError, db)
        else
          (Ok tt, mkDatabase (products db)
                    (Some (insert_row (mkOrderColumns now) t)) (order_items db))
    | None => (Raise OperationalError, db)
    end.

(** ** The program *)

Record Product : Type := mkProduct {
  id : Z;
  name : string;
  description : string;
  price : Z;
  image_url : string
}.

Definition product_of_row (row : Z * product_columns) : Product :=
  mkProduct (fst row) (col_name (snd row)) (col_description (snd row))
    (col_price (snd row)) (col_image_url (snd row)).

Definition seed_products : list product_columns :=
  [ mkProductColumns
      "هدست بی‌سیم"
      "کیفیت صدای شفاف با عمر باتری ۲۰ ساعته"
      1450000
      "https://images.unsplash.com/photo-1518441988334-5d2fede6e7e4?auto=format&fit=crop&w=600&q=80";
    mkProductColumns
      "لپ‌تاپ سبک"
      "مناسب برای کارهای روزمره و سفر"
      24800000
      "https://images.unsplash.com/photo-1517336714731-489689fd1ca8?auto=format&fit=crop&w=600&q=80";
    mkProductColumns
      "ساعت هوشمند"
      "ردیابی فعالیت‌های ورزشی و اعلان‌ها"
      3950000
      "https://images.unsplash.com/photo-1511707171634-5f897ff02aa9?auto=format&fit=crop&w=600&q=80" ].

Definition init_db : M unit :=
  with_connection (
    execute DDL create_products_if_not_exists ;;;
    execute DDL create_orders_if_not_exists ;;;
    execute DDL create_order_items_if_not_exists ;;;
    count <- execute DQL count_products ;;
    if count =? 0 then execute DML (insert_products seed_products)
    else ret tt).

(** [@app.before_request] *)
Definition ensure_database : M unit :=
  fun w =>
    match db_file w with
    | Some _ => (Ok tt, w)
    | None => init_db w
    end.

Definition fetch_products : M (list Product) :=
  rows <- with_connection (execute DQL select_products) ;;
  ret (map product_of_row rows).

Definition fetch_product (product_id : Z) : M (option Product) :=
  row <- with_connection (execute DQL (select_product product_id)) ;;
  match row with
  | None => ret None
  | Some row => ret (Some (product_of_row row))
  end.

Definition get_cart : M (dict Z) :=
  cart <- gets (fun w => get "cart" (session w)) ;;
  match cart with
  | Some (PDict cart) => ret cart
  | _ => ret []
  end.

Definition save_cart (cart : dict Z) : M unit :=
  modify (fun w => mkWorld (db_file w) (set "cart" (PDict cart) (session w))).

(** *** Responses *)

Record cart_item : Type := mkCartItem {
  item_product : Product;
  item_quantity : Z;
  item_total : Z
}.

(** The keyword arguments handed to [render_template]. *)
Inductive template_args : Type :=
| NoArgs
| IndexArgs (products : list Product) (cart_size : Z)
| ProductArgs (product : Product)
| CartArgs (items : list cart_item) (total : Z).

Inductive response : Type :=
| Redirect (location : string)
| Render (template : string) (args : template_args) (status : Z).

Definition render_template (template : string) (args : template_args)
  : response := Render template args 200.

(** [url_for] on the endpoints the program redirects to. *)
Inductive endpoint : Type := ep_index | ep_view_cart.

Definition url_for (e : endpoint) : string :=
  match e with
  | ep_index => "/"
  | ep_view_cart => "/cart"
  end.

Definition redirect (location : string) : response := Redirect location.

(** Python truthiness of [request.form.get("product_id")]: a missing field
    and an empty value are both falsy. *)
Definition falsy (v : option string) : bool :=
  match v with
  | None => true
  | Some s => String.eqb s ""
  end.

(** *** View functions *)

(** [@app.route("/")] *)
Definition index : M response :=
  products <- fetch_products ;;
  cart <- get_cart ;;
  let cart_size := py_sum (values cart) in
  ret (render_template "index.html" (IndexArgs products cart_size)).

(** [@app.route("/products/<int:product_id>")] *)
Definition product_detail (product_id : Z) : M response :=
  product <- fetch_product product_id ;;
  match product with
  | None => ret (Render "not_found.html" NoArgs 404)
  | Some product => ret (render_template "product.html" (ProductArgs product))
  end.

(** The [for] loop of [view_cart]; [products] and [total] are the two
    variables it updates. *)
Fixpoint view_cart_loop (entries : list (string * Z))
    (products : list cart_item) (total : Z) : M (list cart_item * Z) :=
  match entries with
  | [] => ret (products, total)
  | (product_id, quantity) :: rest =>
      match py_int product_id with
      | None => raise ValueError
      | Some n =>
          product <- fetch_product n ;;
          match product with
          | None => view_cart_loop rest products total
          | Some product =>
              let item_total := price product * quantity in
              view_cart_loop rest
                (products ++ [mkCartItem product quantity item_total])
                (total + item_total)
          end
      end
  end.

(** [@app.route("/cart")] *)
Definition view_cart : M response :=
  cart <- get_cart ;;
  r <- view_cart_loop (items cart) [] 0 ;;
  ret (render_template "cart.html" (CartArgs (fst r) (snd r))).

(** [@app.route("/cart/add", methods=["POST"])] *)
Definition add_to_cart (form : dict string) : M response :=
  match get "product_id" form with
  | Some product_id =>
      if falsy (Some product_id) then ret (redirect (url_for ep_index))
      else
        cart <- get_cart ;;
        let quantity :=
          match get product_id cart with Some q => q | None => 0 end in
        save_cart (set product_id (quantity + 1) cart) ;;;
        ret (redirect (url_for ep_view_cart))
  | None => ret (redirect (url_for ep_index))
  end.

(** [@app.route("/cart/remove", methods=["POST"])] *)
Definition remove_from_cart (form : dict string) : M response :=
  match get "product_id" form with
  | Some product_id =>
      if falsy (Some product_id) then ret (redirect (url_for ep_view_cart))
      else
        cart <- get_cart ;;
        save_cart (if contains product_id cart then pop product_id cart
                   else cart) ;;;
        ret (redirect (url_for ep_view_cart))
  | None => ret (redirect (url_for ep_view_cart))
  end.

(** [@app.route("/checkout", methods=["POST"])]; [now] is the reading of
    the store's clock. *)
Definition checkout (now : string) : M response :=
  cart <- get_cart ;;
  if is_empty cart then ret (redirect (url_for ep_index))
  else
    with_connection (execute DML (insert_order now)) ;;;
    modify (fun w => mkWorld (db_file w) (pop "cart" (session w))) ;;;
    ret (render_template "checkout.html" NoArgs).

(** *** Requests: the route table *)

Inductive request : Type :=
| GET_index                                   (* GET  /               *)
| GET_product (product_id : Z)                (* GET  /products/<int> *)
| GET_cart                                    (* GET  /cart           *)
| POST_cart_add (form : dict string)          (* POST /cart/add       *)
| POST_cart_remove (form : dict string)       (* POST /cart/remove    *)
| POST_checkout.                              (* POST /checkout       *)

Definition dispatch (now : string) (r : request) : M response :=
  match r with
  | GET_index => index
  | GET_product product_id => product_detail product_id
  | GET_cart => view_cart
  | POST_cart_add form => add_to_cart form
  | POST_cart_remove form => remove_from_cart form
  | POST_checkout => checkout now
  end.

(** A request: the [before_request] hook, then the view function. *)
Definition serve (now : string) (r : request) : M response :=
  ensure_database ;;; dispatch now r.

(** ** Observations used in the statements *)

Definition table_rows {R} (t : option (table R)) : list (Z * R) :=
  match t with
  | Some t => rows t
  | None => []
  end.

Definition product_rows (w : world) : list (Z * product_columns) :=
  table_rows (products (get_connection w)).

Definition order_rows (w : world) : list (Z * order_columns) :=
  table_rows (orders (get_connection w)).

Definition order_item_rows (w : world) : list (Z * order_item_columns) :=
  table_rows (order_items (get_connection w)).

(** The cart a request finds in the session: what [get_cart] returns. *)
Definition cart_of (w : world) : dict Z :=
  match get "cart" (session w) with
  | Some (PDict cart) => cart
  | _ => []
  end.

(** The product a cart key stands for, when the catalogue has it. *)
Definition lookup_product (w : world) (n : Z) : option Product :=
  option_map product_of_row (row_with_id n (product_rows w)).

(** The world once a connection has been opened: the file exists. *)
Definition connected (w : world) : world :=
  mkWorld (Some (get_connection w)) (session w).

(** What [CREATE TABLE IF NOT EXISTS] leaves behind. *)
Definition table_or_new {R} (t : option (table R)) : table R :=
  match t with
  | Some t => t
  | None => empty_table
  end.

(** The products table after the seeding step of [init_db]: the seed
    rows go in when the table has no row and takes all three; a seeding
    that fails is rolled back. *)
Definition seeded (t : table product_columns) : table product_columns :=
  match rows t with
  | [] => let (done, t') := insert_each seed_products t in
          if done then t' else t
  | _ :: _ => t
  end.

(** How the seeding step ends. *)
Definition seeding (t : table product_columns) : result unit :=
  match rows t with
  | [] => if fst (insert_each seed_products t) then Ok tt
          else Raise OperationalError
  | _ :: _ => Ok tt
  end.

(** The largest id the products table has handed out; none before the
    table exists. *)
Definition products_seq (w : world) : Z :=
  match products (get_connection w) with
  | Some t => seq t
  | None => 0
  end.

(** [n] runs of [init_db] in a row. *)
Definition initialize (n : nat) (w : world) : world :=
  Nat.iter n (fun w => snd (init_db w)) w.

(** The rows of the order_items table of a database file. *)
Definition item_rows_of (db : database) : list (Z * order_item_columns) :=
  table_rows (order_items db).

(** The product a cart key resolves to: the key read as an integer, then
    looked up by id. *)
Definition resolve (w : world) (key : string) : option Product :=
  match py_int key with
  | Some n => lookup_product w n
  | None => None
  end.

(** The entries that resolve, as the cart page lists them. *)
Definition resolved_items (w : world) (entries : list (string * Z))
  : list cart_item :=
  flat_map (fun e =>
    match resolve w (fst e) with
    | Some p => [mkCartItem p (snd e) (price p * snd e)]
    | None => []
    end) entries.

(** Unit price times quantity over the entries that resolve; the others
    count for zero. *)
Definition resolved_total (w : world) (entries : list (string * Z)) : Z :=
  py_sum (map (fun e =>
    match resolve w (fst e) with
    | Some p => price p * snd e
    | None => 0
    end) entries).

(** A key the cart page can look up: an integer literal within SQLite's
    range. *)
Definition key_ok (key : string) : bool :=
  match py_int key with
  | Some n => fits_int64 n
  | None => false
  end.

(** A computation preserves an observation of the state when the
    observation reads the same before and after, whatever the outcome. *)
Definition preserves {S A X} (obs : S -> X) (m : ST S A) : Prop :=
  forall s, obs (snd (m s)) = obs s.

(** A database file in which the three tables have been created. *)
Definition schema_ready (db : database) : bool :=
  match products db, orders db, order_items db with
  | Some _, Some _, Some _ => true
  | _, _, _ => false
  end.

(** The store as [init_db] and the hook keep it: no file yet, or a file
    with its three tables. *)
Definition store_ready (w : world) : bool :=
  match db_file w with
  | None => true
  | Some db => schema_ready db
  end.

(** A cart as the cart views build it: distinct, non-empty keys and
    positive quantities. *)
Definition cart_valid (cart : dict Z) : Prop :=
  wf cart /\ Forall (fun e => fst e <> "" /\ 0 < snd e) cart.

(** *** The session between two requests

    The session travels in a cookie.  Flask writes it as JSON with the
    keys of every dictionary sorted, and the next request reads it back
    in that order.  Python orders strings by code point, which is the
    order of their UTF-8 bytes. *)

Fixpoint insert_sorted {V} (e : string * V) (d : dict V) : dict V :=
  match d with
  | [] => [e]
  | e' :: rest =>
      if String.leb (fst e) (fst e') then e :: d
      else e' :: insert_sorted e rest
  end.

Definition sort_keys {V} (d : dict V) : dict V :=
  fold_right insert_sorted [] d.

Definition cookie_value (v : pyval) : pyval :=
  match v with
  | PDict d => PDict (sort_keys d)
  | _ => v
  end.

Definition cookie_round_trip (s : dict pyval) : dict pyval :=
  sort_keys (map (fun e => (fst e, cookie_value (snd e))) s).

(** The world the next request starts in. *)
Definition next_request (w : world) : world :=
  mkWorld (db_file w) (cookie_round_trip (session w)).

(** Entries in ascending order of their keys. *)
Definition key_le {V} (a b : string * V) : Prop :=
  String.leb (fst a) (fst b) = true.

(** A sequence of requests, each with the clock reading at its time and
    each starting from the session the one before sent back. *)
Definition serve_all (requests : list (string * request)) (w : world)
  : world :=
  fold_left (fun w nr => next_request (snd (serve (fst nr) (snd nr) w)))
    requests w.

(** [n] add requests with the same form, one after the other. *)
Definition add_times (n : nat) (form : dict string) (w : world) : world :=
  Nat.iter n (fun w => snd (add_to_cart form w)) w.

(** The routes that are served for GET. *)
Definition is_get (r : request) : bool :=
  match r with
  | GET_index | GET_product _ | GET_cart => true
  | POST_cart_add _ | POST_cart_remove _ | POST_checkout => false
  end.

(** A line of the cart page whose total is unit price times quantity. *)
Definition item_consistent (it : cart_item) : Prop :=
  item_total it = price (item_product it) * item_quantity it.

(** The orders table is there and can take another row. *)
Definition orders_open (w : world) : bool :=
  match orders (get_connection w) with
  | Some t => negb (table_full t)
  | None => false
  end.

(** * Properties *)

(** ** Dictionaries *)

Section DictFacts.

Context {V : Type}.
Implicit Types (k : string) (v : V) (d : dict V).

Lemma get_set_eq k v d : get k (set k v d) = Some v.
Proof.
  induction d as [| [k' v'] rest IH]; simpl.
  - now rewrite String.eqb_refl.
  - destruct (String.eqb k k') eqn:E; simpl.
    + now rewrite String.eqb_refl.
    + now rewrite E.
Qed.

Lemma get_set_ne k k' v d : k <> k' -> get k' (set k v d) = get k' d.
Proof.
  intros Hne. induction d as [| [k0 v0] rest IH]; simpl.
  - destruct (String.eqb k' k) eqn:E; [| reflexivity].
    apply String.eqb_eq in E. congruence.
  - destruct (String.eqb k k0) eqn:E; simpl.
    + apply String.eqb_eq in E. subst k0.
      destruct (String.eqb k' k) eqn:E'; [| reflexivity].
      apply String.eqb_eq in E'. congruence.
    + now rewrite IH.
Qed.

Lemma get_pop_eq k d : get k (pop k d) = None.
Proof.
  induction d as [| [k' v'] rest IH]; simpl; [reflexivity |].
  destruct (String.eqb k k') eqn:E; simpl; [assumption |].
  now rewrite E.
Qed.

Lemma get_pop_ne k k' d : k <> k' -> get k' (pop k d) = get k' d.
Proof.
  intros Hne. induction d as [| [k0 v0] rest IH]; simpl; [reflexivity |].
  destruct (String.eqb k k0) eqn:E; simpl.
  - apply String.eqb_eq in E. subst k0.
    destruct (String.eqb k' k) eqn:E'; [| assumption].
    apply String.eqb_eq in E'. congruence.
  - now rewrite IH.
Qed.

Lemma pop_absent k d : get k d = None -> pop k d = d.
Proof.
  induction d as [| [k' v'] rest IH]; simpl; [reflexivity |].
  destruct (String.eqb k k'); [discriminate |].
  intros H. now rewrite IH.
Qed.

Lemma pop_pop k d : pop k (pop k d) = pop k d.
Proof. apply pop_absent, get_pop_eq. Qed.

Lemma contains_pop k d : contains k (pop k d) = false.
Proof. unfold contains. now rewrite get_pop_eq. Qed.

Lemma keys_pop_incl k d x : In x (map fst (pop k d)) -> In x (map fst d).
Proof.
  induction d as [| [k' v'] rest IH]; simpl; [tauto |].
  destruct (String.eqb k k'); simpl; tauto.
Qed.

Lemma wf_pop k d : wf d -> wf (pop k d).
Proof.
  unfold wf. induction d as [| [k' v'] rest IH]; simpl; intros H.
  - constructor.
  - inversion H as [| ? ? Hnotin Hrest]; subst.
    destruct (String.eqb k k'); simpl; [auto |].
    constructor; [| auto].
    intros Hin. apply Hnotin. eapply keys_pop_incl; eassumption.
Qed.

Lemma keys_set k v d x :
  In x (map fst (set k v d)) -> x = k \/ In x (map fst d).
Proof.
  induction d as [| [k' v'] rest IH]; simpl.
  - intuition.
  - destruct (String.eqb k k') eqn:E; simpl.
    + apply String.eqb_eq in E. subst. intuition.
    + intuition.
Qed.

Lemma wf_set k v d : wf d -> wf (set k v d).
Proof.
  unfold wf. induction d as [| [k' v'] rest IH]; simpl; intros H.
  - constructor; [simpl; tauto | constructor].
  - inversion H as [| ? ? Hnotin Hrest]; subst.
    destruct (String.eqb k k') eqn:E; simpl.
    + apply String.eqb_eq in E. subst. now constructor.
    + constructor; [| auto].
      intros Hin. apply keys_set in Hin. destruct Hin as [-> | Hin].
      * now rewrite String.eqb_refl in E.
      * contradiction.
Qed.

Lemma is_empty_nil d : is_empty d = true <-> d = [].
Proof. destruct d; simpl; split; congruence. Qed.

End DictFacts.

Lemma py_sum_from (xs : list Z) (a : Z) :
  fold_left Z.add xs a = a + fold_left Z.add xs 0.
Proof.
  revert a. induction xs as [| x xs IH]; intros a; simpl; [lia |].
  rewrite (IH (a + x)), (IH x). lia.
Qed.

Lemma py_sum_cons (x : Z) (xs : list Z) : py_sum (x :: xs) = x + py_sum xs.
Proof. unfold py_sum. simpl. now rewrite py_sum_from. Qed.


(** ** Sorted keys *)

Section SortFacts.

Context {V : Type}.
Implicit Types (k : string) (e : string * V) (d : dict V).

Lemma leb_refl (k : string) : String.leb k k = true.
Proof. now destruct (String.leb_total k k). Qed.

Lemma get_insert_sorted k e d :
  get k (insert_sorted e d) =
  if String.eqb k (fst e) then Some (snd e) else get k d.
Proof.
  destruct e as [k0 v0]. simpl fst. simpl snd.
  induction d as [| [k' v'] rest IH]; simpl; [reflexivity |].
  destruct (String.leb k0 k') eqn:Hle; simpl.
  - reflexivity.
  - rewrite IH. destruct (String.eqb k k0) eqn:E; [| reflexivity].
    apply String.eqb_eq in E. subst k0.
    destruct (String.eqb k k') eqn:E'; [| reflexivity].
    apply String.eqb_eq in E'. subst k'. now rewrite leb_refl in Hle.
Qed.

Lemma get_sort_keys k d : get k (sort_keys d) = get k d.
Proof.
  induction d as [| [k' v'] rest IH]; simpl; [reflexivity |].
  rewrite get_insert_sorted, IH. reflexivity.
Qed.

Lemma insert_sorted_perm e d : Permutation (insert_sorted e d) (e :: d).
Proof.
  induction d as [| e' rest IH]; simpl; [reflexivity |].
  destruct (String.leb (fst e) (fst e')); [reflexivity |].
  rewrite IH. apply perm_swap.
Qed.

Lemma sort_keys_perm d : Permutation (sort_keys d) d.
Proof.
  induction d as [| e rest IH]; simpl; [reflexivity |].
  rewrite insert_sorted_perm. now constructor.
Qed.

Lemma insert_sorted_sorted e d :
  Sorted key_le d -> Sorted key_le (insert_sorted e d).
Proof.
  induction d as [| e' rest IH]; simpl; intros Hs.
  - repeat constructor.
  - inversion Hs as [| ? ? Hrest Hhd]; subst.
    destruct (String.leb (fst e) (fst e')) eqn:Hle.
    + constructor; [exact Hs |]. constructor. exact Hle.
    + constructor; [now apply IH |].
      assert (Hge : key_le e' e).
      { unfold key_le. destruct (String.leb_total (fst e) (fst e'));
          [congruence | assumption]. }
      destruct rest as [| e'' rest']; simpl.
      * constructor. exact Hge.
      * destruct (String.leb (fst e) (fst e'')); constructor;
          [exact Hge | now inversion Hhd].
Qed.

Lemma sort_keys_sorted d : Sorted key_le (sort_keys d).
Proof.
  induction d as [| e rest IH]; simpl; [constructor |].
  now apply insert_sorted_sorted.
Qed.

Lemma wf_sort_keys d : wf d -> wf (sort_keys d).
Proof.
  unfold wf. intros H.
  eapply Permutation_NoDup; [| exact H].
  apply Permutation_map. symmetry. apply sort_keys_perm.
Qed.

Lemma forall_sort_keys (P : string * V -> Prop) d :
  Forall P d -> Forall P (sort_keys d).
Proof.
  intros H. eapply Permutation_Forall; [| exact H].
  symmetry. apply sort_keys_perm.
Qed.

End SortFacts.

Lemma get_map_values {V W} (g : V -> W) (k : string) (d : dict V) :
  get k (map (fun e => (fst e, g (snd e))) d) = option_map g (get k d).
Proof.
  induction d as [| [k' v'] rest IH]; simpl; [reflexivity |].
  destruct (String.eqb k k'); [reflexivity | exact IH].
Qed.

(** ** Running the monad *)

Lemma bind_ok {S A B} (m : ST S A) (f : A -> ST S B) s a s' :
  m s = (Ok a, s') -> bind m f s = f a s'.
Proof. intros H. unfold bind. now rewrite H. Qed.

Lemma bind_raise {S A B} (m : ST S A) (f : A -> ST S B) s e s' :
  m s = (Raise e, s') -> bind m f s = (Raise e, s').
Proof. intros H. unfold bind. now rewrite H. Qed.

Section Frame.

Context {S X : Type} (obs : S -> X).

Lemma preserves_ret {A} (a : A) : preserves obs (ret a).
Proof. intros s. reflexivity. Qed.

Lemma preserves_raise {A} (e : exn) : preserves obs (@raise S A e).
Proof. intros s. reflexivity. Qed.

Lemma preserves_gets {A} (f : S -> A) : preserves obs (gets f).
Proof. intros s. reflexivity. Qed.

Lemma preserves_modify (f : S -> S) :
  (forall s, obs (f s) = obs s) -> preserves obs (modify f).
Proof. intros H s. apply H. Qed.

Lemma preserves_bind {A B} (m : ST S A) (f : A -> ST S B) :
  preserves obs m -> (forall a, preserves obs (f a)) ->
  preserves obs (bind m f).
Proof.
  intros Hm Hf s. unfold bind.
  specialize (Hm s). destruct (m s) as [[a | e] s']; simpl in Hm.
  - now rewrite Hf.
  - assumption.
Qed.

End Frame.

(** Running one statement in a [with] block preserves an observation of
    the database file as soon as the statement does. *)
Lemma preserves_with_connection {A X} (obs : database -> X)
    (kind : statement_kind) (statement : ST database A) :
  preserves obs statement ->
  preserves (fun w => obs (get_connection w))
    (with_connection (execute kind statement)).
Proof.
  intros Hbody w. unfold with_connection, execute. simpl working.
  specialize (Hbody (get_connection w)).
  destruct (statement (get_connection w)) as [[a | e] db']; simpl in *;
    destruct kind; simpl; auto.
Qed.

(** ** The session *)

Lemma get_cart_run (w : world) : get_cart w = (Ok (cart_of w), w).
Proof.
  unfold get_cart, cart_of, bind, gets.
  destruct (get "cart" (session w)) as [[| | | | |] |]; reflexivity.
Qed.

Lemma save_cart_run (cart : dict Z) (w : world) :
  save_cart cart w =
  (Ok tt, mkWorld (db_file w) (set "cart" (PDict cart) (session w))).
Proof. reflexivity. Qed.

Lemma cart_of_saved (f : option database) (s : dict pyval) (cart : dict Z) :
  cart_of (mkWorld f (set "cart" (PDict cart) s)) = cart.
Proof. unfold cart_of. simpl. now rewrite get_set_eq. Qed.

Lemma cart_of_popped (f : option database) (s : dict pyval) :
  cart_of (mkWorld f (pop "cart" s)) = [].
Proof. unfold cart_of. simpl. now rewrite get_pop_eq. Qed.

(** The cart comes back from the cookie with the same entries, sorted. *)
Lemma cart_of_next_request (w : world) :
  cart_of (next_request w) = sort_keys (cart_of w).
Proof.
  unfold cart_of, next_request, cookie_round_trip. simpl session.
  rewrite get_sort_keys, get_map_values.
  destruct (get "cart" (session w)) as [[| | | | |] |]; reflexivity.
Qed.

Lemma set_set {V} (k : string) (v : V) (d : dict V) :
  set k v (set k v d) = set k v d.
Proof.
  induction d as [| [k' v'] rest IH]; simpl.
  - now rewrite String.eqb_refl.
  - destruct (String.eqb k k') eqn:E; simpl.
    + now rewrite String.eqb_refl.
    + now rewrite E, IH.
Qed.

(** ** The store *)

Lemma connected_existing (w : world) (db : database) :
  db_file w = Some db -> connected w = w.
Proof. destruct w as [f s]. simpl. intros ->. reflexivity. Qed.

Lemma get_connection_connected (w : world) :
  get_connection (connected w) = get_connection w.
Proof. reflexivity. Qed.

Lemma fetch_product_state (n : Z) (w : world) :
  snd (fetch_product n w) = connected w.
Proof.
  unfold fetch_product, bind, with_connection, execute, select_product,
    connected. simpl working.
  destruct (products (get_connection w)) as [t |]; [| reflexivity].
  destruct (fits_int64 n); [| reflexivity].
  destruct (row_with_id n (rows t)); reflexivity.
Qed.

Lemma fetch_product_run (n : Z) (w : world) (t : table product_columns) :
  products (get_connection w) = Some t ->
  fits_int64 n = true ->
  fetch_product n w = (Ok (lookup_product w n), connected w).
Proof.
  intros Ht Hn.
  unfold fetch_product, bind, with_connection, execute, select_product,
    connected, lookup_product, product_rows. simpl working.
  rewrite Ht, Hn. simpl.
  destruct (row_with_id n (rows t)); reflexivity.
Qed.

Lemma fetch_products_run (w : world) (t : table product_columns) :
  products (get_connection w) = Some t ->
  fetch_products w = (Ok (map product_of_row (rows t)), connected w).
Proof.
  intros Ht.
  unfold fetch_products, bind, with_connection, execute, select_products,
    connected. simpl working.
  now rewrite Ht.
Qed.

(** ** Reading the cart *)

(** C6.  [get_cart] never raises and leaves the world as it is; it returns
    the empty dictionary when the session has no cart or holds something
    that is not a dictionary under ["cart"], and the stored dictionary
    otherwise. *)
Theorem get_cart_defensive (w : world) :
  (exists cart, get_cart w = (Ok cart, w)) /\
  (get "cart" (session w) = None -> get_cart w = (Ok [], w)) /\
  (forall v, get "cart" (session w) = Some v ->
     (forall d, v <> PDict d) -> get_cart w = (Ok [], w)) /\
  (forall d, get "cart" (session w) = Some (PDict d) ->
     get_cart w = (Ok d, w)).
Proof.
  rewrite get_cart_run. unfold cart_of.
  repeat split.
  - eexists. reflexivity.
  - intros ->. reflexivity.
  - intros v -> Hv. destruct v; try reflexivity.
    exfalso. now apply (Hv d).
  - intros d ->. reflexivity.
Qed.

Lemma get_cart_defensive_witness :
  get_cart (mkWorld None []) = (Ok [], mkWorld None []) /\
  get_cart (mkWorld None [("cart", PStr "x")]) =
    (Ok [], mkWorld None [("cart", PStr "x")]) /\
  get_cart (mkWorld None [("cart", PDict [("1", 2)])]) =
    (Ok [("1", 2)], mkWorld None [("cart", PDict [("1", 2)])]).
Proof.
  split; [| split].
  - destruct (get_cart_defensive (mkWorld None [])) as (_ & H & _).
    apply H. reflexivity.
  - destruct (get_cart_defensive (mkWorld None [("cart", PStr "x")]))
      as (_ & _ & H & _).
    apply (H (PStr "x")); [reflexivity | discriminate].
  - destruct (get_cart_defensive (mkWorld None [("cart", PDict [("1", 2)])]))
      as (_ & _ & _ & H).
    apply H. reflexivity.
Defined.

(** ** Checkout *)

Lemma insert_order_run (now : string) (w : world) (t : table order_columns) :
  orders (get_connection w) = Some t ->
  table_full t = false ->
  with_connection (execute DML (insert_order now)) w =
  (Ok tt,
   mkWorld
     (Some (mkDatabase (products (get_connection w))
              (Some (insert_row (mkOrderColumns now) t))
              (order_items (get_connection w))))
     (session w)).
Proof.
  intros Ht Hroom. unfold with_connection, execute, insert_order.
  simpl working. now rewrite Ht, Hroom.
Qed.

Lemma view_cart_empty (w : world) :
  cart_of w = [] ->
  view_cart w = (Ok (render_template "cart.html" (CartArgs [] 0)), w).
Proof.
  intros Hc. unfold view_cart.
  rewrite (bind_ok _ _ _ _ _ (get_cart_run w)), Hc. reflexivity.
Qed.

Lemma checkout_run (now : string) (w : world) (t : table order_columns) :
  cart_of w <> [] ->
  orders (get_connection w) = Some t ->
  table_full t = false ->
  checkout now w =
  (Ok (render_template "checkout.html" NoArgs),
   mkWorld
     (Some (mkDatabase (products (get_connection w))
              (Some (insert_row (mkOrderColumns now) t))
              (order_items (get_connection w))))
     (pop "cart" (session w))).
Proof.
  intros Hne Ht Hroom. unfold checkout.
  rewrite (bind_ok _ _ _ _ _ (get_cart_run w)).
  destruct (cart_of w) as [| e rest] eqn:Hc; [congruence |].
  change (is_empty (e :: rest)) with false. cbv iota.
  rewrite (bind_ok _ _ _ _ _ (insert_order_run now w t Ht Hroom)).
  reflexivity.
Qed.

(** C1.  With a non-empty cart and an orders table that is in place and
    has not run out of ids, [checkout] renders the confirmation page,
    appends exactly one row to the orders table (stamped with the clock
    reading, under the next id), touches no other table, and drops the
    cart from the session: reading the cart afterwards gives the empty
    dictionary and the cart page shows no item. *)
Theorem checkout_nonempty_cart (now : string) (w : world)
    (t : table order_columns) :
  cart_of w <> [] ->
  orders (get_connection w) = Some t ->
  table_full t = false ->
  let w' := snd (checkout now w) in
  fst (checkout now w) = Ok (render_template "checkout.html" NoArgs) /\
  order_rows w' = order_rows w ++ [(next_rowid t, mkOrderColumns now)] /\
  product_rows w' = product_rows w /\
  order_item_rows w' = order_item_rows w /\
  session w' = pop "cart" (session w) /\
  get_cart w' = (Ok [], w') /\
  view_cart w' = (Ok (render_template "cart.html" (CartArgs [] 0)), w').
Proof.
  intros Hne Ht Hroom.
  rewrite (checkout_run now w t Hne Ht Hroom). cbv zeta. simpl fst. simpl snd.
  repeat split.
  - unfold order_rows. simpl. now rewrite Ht.
  - rewrite get_cart_run. now rewrite cart_of_popped.
  - apply view_cart_empty, cart_of_popped.
Qed.

Lemma checkout_nonempty_cart_witness :
  let w := mkWorld (Some (mkDatabase None (Some (mkTable [] 0)) None))
             [("cart", PDict [("2", 1)])] in
  fst (checkout "2024-01-01 00:00:00" w) =
    Ok (render_template "checkout.html" NoArgs) /\
  order_rows (snd (checkout "2024-01-01 00:00:00" w)) =
    [(1, mkOrderColumns "2024-01-01 00:00:00")] /\
  get_cart (snd (checkout "2024-01-01 00:00:00" w)) =
    (Ok [], snd (checkout "2024-01-01 00:00:00" w)).
Proof.
  pose proof (checkout_nonempty_cart "2024-01-01 00:00:00"
                (mkWorld (Some (mkDatabase None (Some (mkTable [] 0)) None))
                   [("cart", PDict [("2", 1)])])
                (mkTable [] 0)) as H.
  destruct H as (H1 & H2 & _ & _ & _ & H3 & _);
    [discriminate | reflexivity | reflexivity |].
  split; [exact H1 | split; [exact H2 | exact H3]].
Defined.

(** A first request on a fresh installation: the hook creates the store,
    then checkout records the order. *)
Lemma init_db_fresh (s : dict pyval) :
  init_db (mkWorld None s) =
  (Ok tt,
   mkWorld
     (Some (mkDatabase (Some (insert_rows seed_products empty_table))
              (Some empty_table) (Some empty_table)))
     s).
Proof. reflexivity. Qed.

Lemma serve_checkout_fresh (now : string) (s : dict pyval) :
  cart_of (mkWorld None s) <> [] ->
  let w' := snd (serve now POST_checkout (mkWorld None s)) in
  fst (serve now POST_checkout (mkWorld None s)) =
    Ok (render_template "checkout.html" NoArgs) /\
  order_rows w' = [(1, mkOrderColumns now)] /\
  cart_of w' = [].
Proof.
  intros Hne. unfold serve.
  assert (Hstart : ensure_database (mkWorld None s) = init_db (mkWorld None s))
    by reflexivity.
  rewrite init_db_fresh in Hstart.
  rewrite (bind_ok _ _ _ _ _ Hstart). unfold dispatch.
  match goal with |- context [checkout now ?w] => set (w1 := w) end.
  assert (Hc : cart_of w1 <> []) by exact Hne.
  rewrite (checkout_run now w1 empty_table Hc eq_refl eq_refl).
  cbv zeta. repeat split. apply cart_of_popped.
Qed.

(** C2.  With an empty cart (none stored, a malformed one, or an empty
    dictionary) [checkout] redirects to the catalogue and leaves the whole
    world as it was: no connection is opened, no row is inserted and the
    session is not written.  For a whole request, where the hook may first
    create the store, the orders table still has the same rows and the
    session is the same. *)
Theorem checkout_empty_cart (now : string) (w : world) :
  cart_of w = [] ->
  checkout now w = (Ok (Redirect "/"), w) /\
  fst (serve now POST_checkout w) = Ok (Redirect "/") /\
  order_rows (snd (serve now POST_checkout w)) = order_rows w /\
  session (snd (serve now POST_checkout w)) = session w.
Proof.
  intros Hc.
  assert (Hview : forall w0, cart_of w0 = [] ->
            checkout now w0 = (Ok (Redirect "/"), w0)).
  { intros w0 H0. unfold checkout.
    rewrite (bind_ok _ _ _ _ _ (get_cart_run w0)), H0. reflexivity. }
  split; [now apply Hview |].
  unfold serve, dispatch.
  destruct w as [[db |] s].
  - assert (Hstart : ensure_database (mkWorld (Some db) s) =
                       (Ok tt, mkWorld (Some db) s)) by reflexivity.
    rewrite (bind_ok _ _ _ _ _ Hstart), (Hview _ Hc). auto.
  - assert (Hstart : ensure_database (mkWorld None s) =
                       init_db (mkWorld None s)) by reflexivity.
    rewrite init_db_fresh in Hstart.
    rewrite (bind_ok _ _ _ _ _ Hstart), Hview by exact Hc. auto.
Qed.

Lemma checkout_empty_cart_witness :
  checkout "2024-01-01 00:00:00" (mkWorld None [("cart", PInt 3)]) =
    (Ok (Redirect "/"), mkWorld None [("cart", PInt 3)]).
Proof.
  apply (checkout_empty_cart "2024-01-01 00:00:00"
           (mkWorld None [("cart", PInt 3)])).
  reflexivity.
Defined.

(** ** Initialising the store *)

Lemma init_db_run (w : world) :
  init_db w =
  (seeding (table_or_new (products (get_connection w))),
   mkWorld
     (Some (mkDatabase
              (Some (seeded (table_or_new (products (get_connection w)))))
              (Some (table_or_new (orders (get_connection w))))
              (Some (table_or_new (order_items (get_connection w))))))
     (session w)).
Proof.
  destruct w as [[[[[[| r rs] sq] |] [o |] [oi |]] |] s];
    try reflexivity;
    unfold init_db, with_connection, bind, execute, seeded, seeding;
    cbn -[insert_each seed_products];
    destruct (insert_each seed_products (mkTable [] sq)) as [[|] t'];
    reflexivity.
Qed.

Lemma insert_each_rows {R} (rs : list R) :
  forall (t t' : table R),
    insert_each rs t = (true, t') ->
    map snd (rows t') = map snd (rows t) ++ rs.
Proof.
  induction rs as [| r rs IH]; intros t t' H; simpl in H.
  - assert (Ht : t = t') by congruence. subst t'. now rewrite app_nil_r.
  - destruct (table_full t); [discriminate |].
    apply IH in H. rewrite H. simpl. rewrite map_app. simpl.
    now rewrite <- app_assoc.
Qed.

Lemma rows_seeded (t : table product_columns) :
  rows t = [] ->
  match seeding t with
  | Ok _ => map snd (rows (seeded t)) = seed_products
  | Raise _ => rows (seeded t) = []
  end.
Proof.
  intros Hr. unfold seeding, seeded. rewrite Hr.
  destruct (insert_each seed_products t) as [[|] t'] eqn:E; simpl.
  - rewrite (insert_each_rows _ _ _ E), Hr. reflexivity.
  - exact Hr.
Qed.

Lemma seeded_seeded (t : table product_columns) : seeded (seeded t) = seeded t.
Proof.
  destruct (rows t) as [| r rs] eqn:Hr.
  - destruct (insert_each seed_products t) as [[|] t'] eqn:E.
    + assert (Hs : seeded t = t') by (unfold seeded; now rewrite Hr, E).
      rewrite Hs. apply insert_each_rows in E. rewrite Hr in E.
      unfold seeded. destruct (rows t'); [discriminate E | reflexivity].
    + assert (Hs : seeded t = t) by (unfold seeded; now rewrite Hr, E).
      now rewrite !Hs.
  - assert (Hs : seeded t = t) by (unfold seeded; now rewrite Hr).
    now rewrite !Hs.
Qed.

(** Seeding an empty table goes through exactly when three more ids
    fit. *)
Lemma seeding_room (t : table product_columns) :
  rows t = [] ->
  fst (insert_each seed_products t) = (seq t <=? rowid_limit - 3).
Proof.
  destruct t as [rs sq]. simpl. intros ->.
  unfold seed_products, insert_each, table_full, insert_row, next_rowid.
  cbn [rows seq largest_rowid app fst snd orb].
  unfold rowid_limit.
  repeat match goal with
         | |- context [?a <=? ?b] => destruct (Z.leb_spec a b)
         | |- context [if ?b || ?c then _ else _] => simpl (b || c)
         end;
    cbn [fst orb]; try reflexivity; try lia.
Qed.

Lemma init_db_twice (w : world) :
  snd (init_db (snd (init_db w))) = snd (init_db w).
Proof.
  rewrite (init_db_run w). simpl snd.
  rewrite init_db_run. simpl. now rewrite seeded_seeded.
Qed.

Lemma initialize_succ (w : world) (n : nat) :
  initialize (S n) w = initialize 1 w.
Proof.
  induction n as [| n IH]; [reflexivity |].
  change (initialize (S (S n)) w) with (snd (init_db (initialize (S n) w))).
  rewrite IH. apply init_db_twice.
Qed.

(** C3.  Running [init_db] any number of times gives the world that one
    run gives.  That one run leaves a products table with rows as it
    found them; on a table without rows (or a missing one) it inserts the
    three seed rows, which goes through exactly when the table can still
    hand out three ids, and otherwise raises and leaves the table without
    rows.  On a missing store it always goes through, and the three seed
    rows, under the ids 1, 2 and 3, are all there is after any number of
    runs.  Once the store exists the [before_request] hook does
    nothing. *)
Theorem init_db_seeds_once (w : world) (n : nat) :
  initialize (S n) w = initialize 1 w /\
  match product_rows w with
  | [] =>
      if products_seq w <=? rowid_limit - 3
      then fst (init_db w) = Ok tt /\
           map snd (product_rows (initialize (S n) w)) = seed_products
      else fst (init_db w) = Raise OperationalError /\
           product_rows (initialize (S n) w) = []
  | _ :: _ =>
      fst (init_db w) = Ok tt /\
      product_rows (initialize (S n) w) = product_rows w
  end /\
  match db_file w with
  | None =>
      fst (init_db w) = Ok tt /\
      map fst (product_rows (initialize (S n) w)) = [1; 2; 3] /\
      map snd (product_rows (initialize (S n) w)) = seed_products
  | Some _ => True
  end /\
  ensure_database (initialize (S n) w) = (Ok tt, initialize (S n) w).
Proof.
  split; [apply initialize_succ |].
  rewrite initialize_succ.
  split; [| split].
  - unfold initialize, product_rows, products_seq. simpl Nat.iter.
    rewrite init_db_run. simpl fst. simpl snd. simpl get_connection.
    simpl products.
    destruct (products (get_connection w)) as [t |]; simpl table_or_new.
    + simpl table_rows. destruct (rows t) as [| r rs] eqn:Hr.
      * pose proof (rows_seeded t Hr) as Hrows.
        pose proof (seeding_room t Hr) as Hroom.
        unfold seeding in *. rewrite Hr in *.
        rewrite <- Hroom.
        destruct (fst (insert_each seed_products t)); now split.
      * unfold seeding, seeded. rewrite Hr. now split.
    + split; reflexivity.
  - destruct w as [[db |] s]; simpl db_file; cbv iota; [exact I |].
    repeat split.
  - unfold initialize. simpl Nat.iter. now rewrite init_db_run.
Qed.

(** On a fresh installation the three seed rows get the ids 1, 2 and 3,
    and they are still the only rows after any number of further runs. *)
Lemma init_db_fresh_rows (s : dict pyval) (n : nat) :
  map fst (product_rows (initialize (S n) (mkWorld None s))) = [1; 2; 3] /\
  map snd (product_rows (initialize (S n) (mkWorld None s))) = seed_products.
Proof.
  rewrite initialize_succ. split; reflexivity.
Qed.

(** ** Adding to and removing from the cart *)

Lemma falsy_nonempty (p : string) : p <> "" -> falsy (Some p) = false.
Proof.
  intros Hp. simpl. destruct (String.eqb p "") eqn:E; [| reflexivity].
  apply String.eqb_eq in E. contradiction.
Qed.

Lemma add_to_cart_run (form : dict string) (p : string) (w : world) :
  get "product_id" form = Some p -> p <> "" ->
  add_to_cart form w =
  (Ok (Redirect "/cart"),
   mkWorld (db_file w)
     (set "cart"
        (PDict (set p (match get p (cart_of w) with
                       | Some q => q
                       | None => 0
                       end + 1) (cart_of w)))
        (session w))).
Proof.
  intros Hf Hp. unfold add_to_cart.
  rewrite Hf, (falsy_nonempty p Hp).
  rewrite (bind_ok _ _ _ _ _ (get_cart_run w)). reflexivity.
Qed.

Lemma pop_if_contains {V} (k : string) (d : dict V) :
  (if contains k d then pop k d else d) = pop k d.
Proof.
  unfold contains. destruct (get k d) eqn:E; [reflexivity |].
  symmetry. now apply pop_absent.
Qed.

Lemma remove_from_cart_run (form : dict string) (p : string) (w : world) :
  get "product_id" form = Some p -> p <> "" ->
  remove_from_cart form w =
  (Ok (Redirect "/cart"),
   mkWorld (db_file w) (set "cart" (PDict (pop p (cart_of w))) (session w))).
Proof.
  intros Hf Hp. unfold remove_from_cart.
  rewrite Hf, (falsy_nonempty p Hp).
  rewrite (bind_ok _ _ _ _ _ (get_cart_run w)).
  rewrite pop_if_contains. reflexivity.
Qed.

(** Without a usable [product_id] neither view touches the world. *)
Lemma add_to_cart_falsy (form : dict string) (w : world) :
  falsy (get "product_id" form) = true ->
  add_to_cart form w = (Ok (Redirect "/"), w).
Proof.
  unfold add_to_cart. destruct (get "product_id" form) as [p |].
  - intros ->. reflexivity.
  - reflexivity.
Qed.

Lemma remove_from_cart_falsy (form : dict string) (w : world) :
  falsy (get "product_id" form) = true ->
  remove_from_cart form w = (Ok (Redirect "/cart"), w).
Proof.
  unfold remove_from_cart. destruct (get "product_id" form) as [p |].
  - intros ->. reflexivity.
  - reflexivity.
Qed.

(** C4, as stated, at the empty product id: two add requests leave the
    cart without an entry for it, where the claim says the entry is 2. *)
Lemma add_to_cart_empty_id_ignored :
  let form := [("product_id", "")] in
  let w := mkWorld None [] in
  get "" (cart_of w) = None /\
  get "" (cart_of (snd (add_to_cart form (snd (add_to_cart form w))))) <>
    Some 2.
Proof. split; [reflexivity | discriminate]. Qed.

(** C4, amended.  For a non-empty product id [p] sent in the form: two add
    requests raise the quantity of [p] by 2 (to 2 when [p] was not in the
    cart), also when the session travels through the cookie in between,
    and change no other entry; a remove request deletes the entry of [p]
    altogether, keeps every other entry, and leaves the cart as it was
    when [p] was not in it.  For the empty product id both views leave
    the world, and so the cart, as it was. *)
Theorem add_twice_then_remove (form : dict string) (p : string) (w : world) :
  get "product_id" form = Some p ->
  (p <> "" ->
   let added := snd (add_to_cart form (snd (add_to_cart form w))) in
   let removed := snd (remove_from_cart form w) in
   get p (cart_of added) =
     Some (match get p (cart_of w) with Some q => q + 2 | None => 2 end) /\
   (forall k, k <> p -> get k (cart_of added) = get k (cart_of w)) /\
   cart_of removed = pop p (cart_of w) /\
   get p (cart_of removed) = None /\
   (forall k, k <> p -> get k (cart_of removed) = get k (cart_of w)) /\
   (get p (cart_of w) = None -> cart_of removed = cart_of w) /\
   get p (cart_of
            (snd (add_to_cart form
                    (next_request (snd (add_to_cart form w)))))) =
     Some (match get p (cart_of w) with Some q => q + 2 | None => 2 end)) /\
  (p = "" ->
   add_to_cart form w = (Ok (Redirect "/"), w) /\
   remove_from_cart form w = (Ok (Redirect "/cart"), w) /\
   cart_of (snd (add_to_cart form (snd (add_to_cart form w)))) = cart_of w /\
   cart_of (snd (remove_from_cart form w)) = cart_of w).
Proof.
  intros Hf. split.
  - intros Hp. cbv zeta.
    rewrite (add_to_cart_run form p (next_request _) Hf Hp).
    rewrite (add_to_cart_run form p w Hf Hp). simpl snd.
    rewrite (add_to_cart_run form p _ Hf Hp). simpl snd.
    rewrite (remove_from_cart_run form p w Hf Hp). simpl snd.
    rewrite cart_of_next_request.
    simpl session. rewrite !cart_of_saved.
    repeat split.
    + rewrite !get_set_eq. f_equal.
      destruct (get p (cart_of w)); lia.
    + intros k Hk. rewrite !get_set_ne by congruence. reflexivity.
    + apply get_pop_eq.
    + intros k Hk. apply get_pop_ne. congruence.
    + apply pop_absent.
    + rewrite get_set_eq, get_sort_keys, get_set_eq. f_equal.
      destruct (get p (cart_of w)); lia.
  - intros ->.
    assert (Hfalsy : falsy (get "product_id" form) = true) by now rewrite Hf.
    rewrite !(add_to_cart_falsy form w Hfalsy),
      (remove_from_cart_falsy form w Hfalsy).
    simpl snd. rewrite (add_to_cart_falsy form w Hfalsy).
    repeat split.
Qed.

Lemma add_twice_then_remove_witness :
  let form := [("product_id", "1")] in
  let w := mkWorld None [("cart", PDict [("2", 1); ("1", 3)])] in
  get "1" (cart_of (snd (add_to_cart form (snd (add_to_cart form w))))) =
    Some 5 /\
  cart_of (snd (remove_from_cart form w)) = [("2", 1)] /\
  add_to_cart [("product_id", "")] w = (Ok (Redirect "/"), w).
Proof.
  destruct (add_twice_then_remove [("product_id", "1")] "1"
              (mkWorld None [("cart", PDict [("2", 1); ("1", 3)])]) eq_refl)
    as [Hfull _].
  destruct Hfull as (H1 & _ & H3 & _); [discriminate |].
  destruct (add_twice_then_remove [("product_id", "")] ""
              (mkWorld None [("cart", PDict [("2", 1); ("1", 3)])]) eq_refl)
    as [_ Hempty].
  destruct (Hempty eq_refl) as (H4 & _).
  split; [exact H1 | split; [exact H3 | exact H4]].
Defined.

(** C10.  A second remove request with the same form changes nothing: the
    world after two of them is the world after one, and so is the cart. *)
Theorem remove_from_cart_idempotent (form : dict string) (w : world) :
  let once := snd (remove_from_cart form w) in
  remove_from_cart form once = (Ok (Redirect "/cart"), once) /\
  cart_of (snd (remove_from_cart form once)) = cart_of once.
Proof.
  cbv zeta.
  assert (H : remove_from_cart form (snd (remove_from_cart form w)) =
              (Ok (Redirect "/cart"), snd (remove_from_cart form w))).
  { destruct (falsy (get "product_id" form)) eqn:Hfalsy.
    - rewrite (remove_from_cart_falsy form w Hfalsy). simpl snd.
      now apply remove_from_cart_falsy.
    - destruct (get "product_id" form) as [p |] eqn:Hf; [| discriminate].
      assert (Hp : p <> "").
      { intros ->. discriminate. }
      rewrite (remove_from_cart_run form p w Hf Hp). simpl snd.
      rewrite (remove_from_cart_run form p _ Hf Hp).
      simpl db_file. simpl session.
      now rewrite cart_of_saved, pop_pop, set_set. }
  now rewrite H.
Qed.

(** ** Whole requests *)

Lemma ensure_database_run (f : option database) :
  exists db, forall s,
    ensure_database (mkWorld f s) = (Ok tt, mkWorld (Some db) s).
Proof.
  destruct f as [db |].
  - exists db. reflexivity.
  - eexists. intros s. unfold ensure_database. simpl db_file. cbv iota.
    rewrite init_db_fresh. reflexivity.
Qed.

Lemma serve_run (now : string) (r : request) (w : world) :
  serve now r w = dispatch now r (snd (ensure_database w)).
Proof.
  destruct w as [f s]. destruct (ensure_database_run f) as [db Hdb].
  unfold serve. now rewrite (bind_ok _ _ _ _ _ (Hdb s)), Hdb.
Qed.

(** C7, as stated, at a form whose [product_id] field is empty: the
    response redirects to the catalogue, not to the cart page. *)
Lemma add_to_cart_empty_field_redirect :
  fst (serve "2024-01-01 00:00:00" (POST_cart_add [("product_id", "")])
         (mkWorld None [])) = Ok (Redirect "/") /\
  Redirect "/" <> Redirect "/cart".
Proof. split; [reflexivity | discriminate]. Qed.

(** C7, amended.  A POST to /cart/add always answers with a redirect: to
    /cart when the form carries a non-empty [product_id], and to the
    catalogue page / when the field is empty or missing, in which case
    the session, and with it the cart, is left as it was. *)
Theorem add_to_cart_redirect (now : string) (form : dict string) (w : world) :
  fst (serve now (POST_cart_add form) w) =
  Ok (Redirect (match get "product_id" form with
                | Some (String _ _) => "/cart"
                | Some EmptyString | None => "/"
                end)) /\
  (get "product_id" form = Some "" \/ get "product_id" form = None ->
   session (snd (serve now (POST_cart_add form) w)) = session w /\
   cart_of (snd (serve now (POST_cart_add form) w)) = cart_of w).
Proof.
  rewrite serve_run. unfold dispatch.
  pose proof (ensure_database_run (db_file w)) as [db Hdb].
  assert (Hhook : session (snd (ensure_database w)) = session w).
  { destruct w as [f s]. simpl in Hdb. now rewrite Hdb. }
  split.
  - destruct (get "product_id" form) as [[| c p] |] eqn:Hf.
    + rewrite add_to_cart_falsy; [reflexivity | now rewrite Hf].
    + rewrite (add_to_cart_run form (String c p)); [reflexivity | exact Hf |].
      discriminate.
    + rewrite add_to_cart_falsy; [reflexivity | now rewrite Hf].
  - intros Hempty.
    assert (Hfalsy : falsy (get "product_id" form) = true).
    { destruct Hempty as [-> | ->]; reflexivity. }
    rewrite (add_to_cart_falsy form _ Hfalsy). simpl snd.
    split; [exact Hhook |]. unfold cart_of. now rewrite Hhook.
Qed.

Lemma add_to_cart_redirect_witness :
  let w := mkWorld None [("cart", PDict [("2", 1)])] in
  fst (serve "2024-01-01 00:00:00" (POST_cart_add [("product_id", "")]) w) =
    Ok (Redirect "/") /\
  cart_of (snd (serve "2024-01-01 00:00:00"
                  (POST_cart_add [("product_id", "")]) w)) = [("2", 1)] /\
  cart_of (snd (serve "2024-01-01 00:00:00" (POST_cart_add []) w)) =
    [("2", 1)].
Proof.
  cbv zeta.
  destruct (add_to_cart_redirect "2024-01-01 00:00:00" [("product_id", "")]
              (mkWorld None [("cart", PDict [("2", 1)])])) as [H1 H2].
  destruct (add_to_cart_redirect "2024-01-01 00:00:00" []
              (mkWorld None [("cart", PDict [("2", 1)])])) as [_ H3].
  split; [exact H1 |]. split.
  - apply H2. now left.
  - apply H3. now right.
Defined.

(** ** The order tables *)

Lemma preserves_session_write {X} (obs : database -> X)
    (f : world -> dict pyval) :
  preserves (fun w => obs (get_connection w))
    (modify (fun w => mkWorld (db_file w) (f w))).
Proof. intros w. reflexivity. Qed.

Lemma get_cart_preserves {X} (obs : world -> X) : preserves obs get_cart.
Proof. intros w. now rewrite get_cart_run. Qed.

Lemma init_db_keeps_items :
  preserves (fun w => item_rows_of (get_connection w)) init_db.
Proof.
  intros w. rewrite init_db_run. unfold item_rows_of. simpl.
  now destruct (order_items (get_connection w)).
Qed.

Lemma ensure_database_keeps_items :
  preserves (fun w => item_rows_of (get_connection w)) ensure_database.
Proof.
  intros w. unfold ensure_database.
  destruct (db_file w) eqn:E; [reflexivity |].
  apply init_db_keeps_items.
Qed.

Lemma select_products_keeps {X} (obs : database -> X) :
  preserves obs select_products.
Proof. intros db. unfold select_products. now destruct (products db). Qed.

Lemma select_product_keeps {X} (obs : database -> X) (n : Z) :
  preserves obs (select_product n).
Proof.
  intros db. unfold select_product.
  destruct (products db); [| reflexivity]. now destruct (fits_int64 n).
Qed.

Lemma insert_order_keeps_items (now : string) :
  preserves item_rows_of (insert_order now).
Proof.
  intros db. unfold insert_order.
  destruct (orders db) as [t |]; [| reflexivity]. now destruct (table_full t).
Qed.

Lemma fetch_product_keeps {X} (obs : database -> X) (n : Z) :
  preserves (fun w => obs (get_connection w)) (fetch_product n).
Proof.
  unfold fetch_product. apply preserves_bind.
  - apply preserves_with_connection, select_product_keeps.
  - intros [row |]; apply preserves_ret.
Qed.

Lemma fetch_products_keeps {X} (obs : database -> X) :
  preserves (fun w => obs (get_connection w)) fetch_products.
Proof.
  unfold fetch_products. apply preserves_bind.
  - apply preserves_with_connection, select_products_keeps.
  - intros rows. apply preserves_ret.
Qed.

Lemma view_cart_loop_keeps {X} (obs : database -> X)
    (entries : list (string * Z)) :
  forall acc total,
    preserves (fun w => obs (get_connection w))
      (view_cart_loop entries acc total).
Proof.
  induction entries as [| [k q] rest IH]; intros acc total; simpl.
  - apply preserves_ret.
  - destruct (py_int k) as [n |]; [| apply preserves_raise].
    apply preserves_bind; [apply fetch_product_keeps |].
    intros [product |]; apply IH.
Qed.

Lemma dispatch_keeps_items (now : string) (r : request) :
  preserves (fun w => item_rows_of (get_connection w)) (dispatch now r).
Proof.
  destruct r as [| n | | form | form |]; simpl.
  - unfold index. apply preserves_bind; [apply fetch_products_keeps |].
    intros ps. apply preserves_bind; [apply get_cart_preserves |].
    intros c. apply preserves_ret.
  - unfold product_detail.
    apply preserves_bind; [apply fetch_product_keeps |].
    intros [product |]; apply preserves_ret.
  - unfold view_cart. apply preserves_bind; [apply get_cart_preserves |].
    intros c. apply preserves_bind; [apply view_cart_loop_keeps |].
    intros res. apply preserves_ret.
  - unfold add_to_cart. destruct (get "product_id" form) as [p |];
      [| apply preserves_ret].
    destruct (falsy (Some p)); [apply preserves_ret |].
    apply preserves_bind; [apply get_cart_preserves |].
    intros c. apply preserves_bind; [| intros; apply preserves_ret].
    apply (preserves_session_write item_rows_of).
  - unfold remove_from_cart. destruct (get "product_id" form) as [p |];
      [| apply preserves_ret].
    destruct (falsy (Some p)); [apply preserves_ret |].
    apply preserves_bind; [apply get_cart_preserves |].
    intros c. apply preserves_bind; [| intros; apply preserves_ret].
    apply (preserves_session_write item_rows_of).
  - unfold checkout. apply preserves_bind; [apply get_cart_preserves |].
    intros c. destruct (is_empty c); [apply preserves_ret |].
    apply preserves_bind.
    + apply preserves_with_connection, insert_order_keeps_items.
    + intros _. apply preserves_bind; [| intros; apply preserves_ret].
      apply (preserves_session_write item_rows_of).
Qed.

(** What checkout does to the store depends on the store and the clock
    only. *)
Lemma checkout_store (now : string) (f : option database) (s : dict pyval) :
  cart_of (mkWorld f s) <> [] ->
  fst (checkout now (mkWorld f s)) =
    match fst (with_connection (execute DML (insert_order now))
                 (mkWorld f [])) with
    | Ok _ => Ok (render_template "checkout.html" NoArgs)
    | Raise e => Raise e
    end /\
  db_file (snd (checkout now (mkWorld f s))) =
    db_file (snd (with_connection (execute DML (insert_order now))
                    (mkWorld f []))).
Proof.
  intros Hne. unfold checkout.
  rewrite (bind_ok _ _ _ _ _ (get_cart_run _)).
  destruct (cart_of (mkWorld f s)) as [| e rest]; [congruence |].
  change (is_empty (e :: rest)) with false. cbv iota.
  unfold bind, with_connection, modify, ret.
  change (get_connection (mkWorld f s)) with (get_connection (mkWorld f [])).
  destruct (execute DML (insert_order now)
              (mkConnection (get_connection (mkWorld f []))
                 (get_connection (mkWorld f [])) false))
    as [[u | e'] c']; split; reflexivity.
Qed.

(** C8.  No request changes the rows of the order_items table, whichever
    route it takes and however it ends.  And what checkout does to the
    store does not depend on the cart: from the same store and the same
    clock reading, two sessions with non-empty carts get the same response
    and leave the same database file, both for the view function alone and
    for the whole request. *)
Theorem order_items_never_written (now : string) (r : request) (w : world) :
  order_item_rows (snd (serve now r w)) = order_item_rows w /\
  (forall (f : option database) (s1 s2 : dict pyval),
     cart_of (mkWorld f s1) <> [] ->
     cart_of (mkWorld f s2) <> [] ->
     fst (checkout now (mkWorld f s1)) = fst (checkout now (mkWorld f s2)) /\
     db_file (snd (checkout now (mkWorld f s1))) =
       db_file (snd (checkout now (mkWorld f s2))) /\
     fst (serve now POST_checkout (mkWorld f s1)) =
       fst (serve now POST_checkout (mkWorld f s2)) /\
     db_file (snd (serve now POST_checkout (mkWorld f s1))) =
       db_file (snd (serve now POST_checkout (mkWorld f s2)))).
Proof.
  split.
  - rewrite serve_run.
    change (order_item_rows (snd (dispatch now r (snd (ensure_database w)))))
      with (item_rows_of
              (get_connection (snd (dispatch now r (snd (ensure_database w)))))).
    rewrite (dispatch_keeps_items now r (snd (ensure_database w))).
    apply ensure_database_keeps_items.
  - intros f s1 s2 H1 H2.
    destruct (checkout_store now f s1 H1) as [Ha1 Hb1].
    destruct (checkout_store now f s2 H2) as [Ha2 Hb2].
    split; [congruence |]. split; [congruence |].
    rewrite !serve_run. destruct (ensure_database_run f) as [db Hdb].
    rewrite !Hdb. simpl snd. unfold dispatch.
    assert (H1' : cart_of (mkWorld (Some db) s1) <> []) by exact H1.
    assert (H2' : cart_of (mkWorld (Some db) s2) <> []) by exact H2.
    destruct (checkout_store now (Some db) s1 H1') as [Hc1 Hd1].
    destruct (checkout_store now (Some db) s2 H2') as [Hc2 Hd2].
    split; congruence.
Qed.

Lemma order_items_never_written_witness :
  let now := "2024-01-01 00:00:00" in
  let f := Some (mkDatabase None (Some (mkTable [] 0)) None) in
  let s1 := [("cart", PDict [("1", 2)])] in
  let s2 := [("cart", PDict [("3", 1); ("2", 5)])] in
  order_item_rows (snd (serve now GET_cart (mkWorld f s1))) =
    order_item_rows (mkWorld f s1) /\
  db_file (snd (checkout now (mkWorld f s1))) =
    db_file (snd (checkout now (mkWorld f s2))).
Proof.
  cbv zeta.
  destruct (order_items_never_written "2024-01-01 00:00:00" GET_cart
              (mkWorld (Some (mkDatabase None (Some (mkTable [] 0)) None))
                 [("cart", PDict [("1", 2)])]))
    as [Ha Hb].
  split; [exact Ha |].
  destruct (Hb (Some (mkDatabase None (Some (mkTable [] 0)) None))
              [("cart", PDict [("1", 2)])]
              [("cart", PDict [("3", 1); ("2", 5)])])
    as (_ & H & _); [discriminate | discriminate | exact H].
Defined.

(** ** The cart page and the badge *)

Lemma view_cart_loop_run (t : table product_columns)
    (entries : list (string * Z)) :
  forall (w : world) (acc : list cart_item) (total : Z),
    products (get_connection w) = Some t ->
    forallb (fun e => key_ok (fst e)) entries = true ->
    fst (view_cart_loop entries acc total w) =
    Ok (acc ++ resolved_items w entries, total + resolved_total w entries).
Proof.
  induction entries as [| [k q] rest IH]; intros w acc total Ht Hkeys.
  - simpl. unfold resolved_total, py_sum. simpl.
    now rewrite app_nil_r, Z.add_0_r.
  - simpl in Hkeys. apply andb_true_iff in Hkeys. destruct Hkeys as [Hk Hrest].
    unfold key_ok in Hk. simpl view_cart_loop.
    unfold resolved_items, resolved_total, resolve. simpl flat_map. simpl map.
    destruct (py_int k) as [n |] eqn:Hn; [| discriminate].
    rewrite (bind_ok _ _ _ _ _ (fetch_product_run n w t Ht Hk)).
    rewrite py_sum_cons.
    destruct (lookup_product w n) as [p |].
    + rewrite (IH (connected w) _ _ Ht Hrest).
      unfold resolved_items, resolved_total, resolve.
      change (lookup_product (connected w)) with (lookup_product w).
      rewrite <- app_assoc. simpl app. f_equal. f_equal. lia.
    + rewrite (IH (connected w) _ _ Ht Hrest).
      unfold resolved_items, resolved_total, resolve.
      change (lookup_product (connected w)) with (lookup_product w).
      reflexivity.
Qed.

(** On a cart whose keys are all integer literals within range, the cart
    page lists the entries that resolve, in cart order, and totals unit
    price times quantity over them. *)
Lemma view_cart_total (w : world) (t : table product_columns) :
  products (get_connection w) = Some t ->
  forallb (fun e => key_ok (fst e)) (cart_of w) = true ->
  fst (view_cart w) =
  Ok (render_template "cart.html"
        (CartArgs (resolved_items w (cart_of w))
           (resolved_total w (cart_of w)))).
Proof.
  intros Ht Hkeys. unfold view_cart.
  rewrite (bind_ok _ _ _ _ _ (get_cart_run w)).
  pose proof (view_cart_loop_run t (cart_of w) w [] 0 Ht Hkeys) as Hloop.
  unfold items, bind.
  destruct (view_cart_loop (cart_of w) [] 0 w) as [[res | e] w']; simpl in Hloop.
  - injection Hloop as ->. reflexivity.
  - discriminate.
Qed.

Lemma fetch_product_overflow (n : Z) (w : world)
    (t : table product_columns) :
  products (get_connection w) = Some t ->
  fits_int64 n = false ->
  fetch_product n w = (Raise OverflowError, connected w).
Proof.
  intros Ht Hn.
  unfold fetch_product, bind, with_connection, execute, select_product.
  simpl working. now rewrite Ht, Hn.
Qed.

Lemma fetch_product_no_table (n : Z) (w : world) :
  products (get_connection w) = None ->
  fetch_product n w = (Raise OperationalError, connected w).
Proof.
  intros Ht.
  unfold fetch_product, bind, with_connection, execute, select_product.
  simpl working. now rewrite Ht.
Qed.

(** A key that is not an integer literal within range stops the loop with
    an exception, wherever it sits in the cart. *)
Lemma view_cart_loop_bad_key (t : table product_columns)
    (entries : list (string * Z)) :
  forall (w : world) (acc : list cart_item) (total : Z),
    products (get_connection w) = Some t ->
    forallb (fun e => key_ok (fst e)) entries = false ->
    fst (view_cart_loop entries acc total w) = Raise ValueError \/
    fst (view_cart_loop entries acc total w) = Raise OverflowError.
Proof.
  induction entries as [| [k q] rest IH]; intros w acc total Ht Hkeys.
  - discriminate.
  - simpl in Hkeys. simpl view_cart_loop. unfold key_ok in Hkeys.
    destruct (py_int k) as [n |]; [| left; reflexivity].
    destruct (fits_int64 n) eqn:Hn.
    + simpl in Hkeys.
      rewrite (bind_ok _ _ _ _ _ (fetch_product_run n w t Ht Hn)).
      destruct (lookup_product w n); apply IH; assumption.
    + right.
      now rewrite (bind_raise _ _ _ _ _ (fetch_product_overflow n w t Ht Hn)).
Qed.

Lemma view_cart_bad_key (w : world) (t : table product_columns) :
  products (get_connection w) = Some t ->
  forallb (fun e => key_ok (fst e)) (cart_of w) = false ->
  fst (view_cart w) = Raise ValueError \/
  fst (view_cart w) = Raise OverflowError.
Proof.
  intros Ht Hkeys. unfold view_cart.
  rewrite (bind_ok _ _ _ _ _ (get_cart_run w)).
  pose proof (view_cart_loop_bad_key t (cart_of w) w [] 0 Ht Hkeys) as Hloop.
  unfold items, bind.
  destruct (view_cart_loop (cart_of w) [] 0 w) as [[res | e] w'];
    simpl in Hloop; simpl.
  - destruct Hloop; discriminate.
  - destruct Hloop as [H | H]; injection H as ->; [left | right]; reflexivity.
Qed.

(** C5, where the code departs from it.  After POST /cart/add with
    [product_id=abc] on a fresh installation the cart is [{"abc": 1}]; its
    only key resolves to no product, so the claim has the cart page show no
    item and a total of zero.  The request GET /cart raises [ValueError]
    instead.  A key that is an integer literal beyond 64 bits ends the same
    way, with [OverflowError]. *)
Theorem view_cart_unparsable_key :
  let now := "2024-01-01 00:00:00" in
  let w := snd (serve now (POST_cart_add [("product_id", "abc")])
                  (mkWorld None [])) in
  let w' := snd (serve now (POST_cart_add [("product_id", "9223372036854775808")])
                   (mkWorld None [])) in
  cart_of w = [("abc", 1)] /\
  resolved_items w (cart_of w) = [] /\
  resolved_total w (cart_of w) = 0 /\
  fst (serve now GET_cart w) = Raise ValueError /\
  cart_of w' = [("9223372036854775808", 1)] /\
  resolved_items w' (cart_of w') = [] /\
  fst (serve now GET_cart w') = Raise OverflowError.
Proof. cbv zeta. repeat split; vm_compute; reflexivity. Qed.

Lemma py_sum_zeros {A} (xs : list A) : py_sum (map (fun _ => 0) xs) = 0.
Proof.
  induction xs as [| x xs IH]; [reflexivity |].
  simpl map. now rewrite py_sum_cons, IH.
Qed.


Lemma index_run (w : world) (t : table product_columns) :
  products (get_connection w) = Some t ->
  fst (index w) =
  Ok (render_template "index.html"
        (IndexArgs (map product_of_row (rows t))
           (py_sum (values (cart_of w))))).
Proof.
  intros Ht. unfold index.
  rewrite (bind_ok _ _ _ _ _ (fetch_products_run w t Ht)).
  rewrite (bind_ok _ _ _ _ _ (get_cart_run (connected w))).
  reflexivity.
Qed.



(** ** Well-formed carts *)

(** The cart stays a dictionary with distinct keys under both cart
    views. *)
Lemma cart_views_keep_wf (form : dict string) (w : world) :
  wf (cart_of w) ->
  wf (cart_of (snd (add_to_cart form w))) /\
  wf (cart_of (snd (remove_from_cart form w))).
Proof.
  intros Hwf.
  destruct (falsy (get "product_id" form)) eqn:Hfalsy.
  - rewrite (add_to_cart_falsy form w Hfalsy),
      (remove_from_cart_falsy form w Hfalsy). now split.
  - destruct (get "product_id" form) as [p |] eqn:Hf; [| discriminate].
    assert (Hp : p <> "") by (intros ->; discriminate).
    rewrite (add_to_cart_run form p w Hf Hp),
      (remove_from_cart_run form p w Hf Hp).
    simpl snd. rewrite !cart_of_saved.
    split; [now apply wf_set | now apply wf_pop].
Qed.

(** * Further properties of the views *)

(** ** The product page *)

Lemma row_with_id_fst {R} (i : Z) (rs : list (Z * R)) (row : Z * R) :
  row_with_id i rs = Some row -> fst row = i /\ In row rs.
Proof.
  unfold row_with_id. intros H. apply find_some in H.
  destruct H as [Hin Heq]. split; [now apply Z.eqb_eq | exact Hin].
Qed.

Lemma row_with_id_absent {R} (i : Z) (rs : list (Z * R)) :
  (forall row, In row rs -> fst row <> i) -> row_with_id i rs = None.
Proof.
  intros Hall. unfold row_with_id.
  destruct (find (fun r => fst r =? i) rs) as [row |] eqn:E; [| reflexivity].
  apply find_some in E. destruct E as [Hin Heq].
  apply Z.eqb_eq in Heq. now apply Hall in Hin.
Qed.

Lemma product_detail_run (n : Z) (w : world) (t : table product_columns) :
  products (get_connection w) = Some t ->
  fits_int64 n = true ->
  fst (product_detail n w) =
  match row_with_id n (rows t) with
  | Some row =>
      Ok (render_template "product.html" (ProductArgs (product_of_row row)))
  | None => Ok (Render "not_found.html" NoArgs 404)
  end.
Proof.
  intros Ht Hn. unfold product_detail.
  rewrite (bind_ok _ _ _ _ _ (fetch_product_run n w t Ht Hn)).
  unfold lookup_product, product_rows. rewrite Ht. simpl.
  destruct (row_with_id n (rows t)); reflexivity.
Qed.

(** X1.  With the products table in place and an id within SQLite's
    range, the product page is the row stored under that id, rendered with
    status 200 and carrying that very id, and it is the not-found page with
    status 404 when no row has the id. *)
Theorem product_detail_found_or_404 (n : Z) (w : world)
    (t : table product_columns) :
  products (get_connection w) = Some t ->
  fits_int64 n = true ->
  (forall row, row_with_id n (rows t) = Some row ->
     fst (product_detail n w) =
       Ok (Render "product.html" (ProductArgs (product_of_row row)) 200) /\
     id (product_of_row row) = n /\ In row (rows t)) /\
  ((forall row, In row (rows t) -> fst row <> n) ->
     fst (product_detail n w) = Ok (Render "not_found.html" NoArgs 404)).
Proof.
  intros Ht Hn. rewrite (product_detail_run n w t Ht Hn). split.
  - intros row Hrow. rewrite Hrow.
    destruct (row_with_id_fst n (rows t) row Hrow) as [Hid Hin].
    repeat split; assumption.
  - intros Hall. now rewrite (row_with_id_absent n (rows t) Hall).
Qed.

Lemma product_detail_found_or_404_witness :
  let w := snd (init_db (mkWorld None [])) in
  (exists p, fst (product_detail 2 w) =
               Ok (Render "product.html" (ProductArgs p) 200) /\ id p = 2) /\
  fst (product_detail 7 w) = Ok (Render "not_found.html" NoArgs 404).
Proof.
  cbv zeta. split.
  - destruct (product_detail_found_or_404 2 (snd (init_db (mkWorld None [])))
                (insert_rows seed_products empty_table) eq_refl eq_refl)
      as [Hfound _].
    destruct (Hfound _ eq_refl) as (H1 & H2 & _).
    eexists. split; [exact H1 | exact H2].
  - destruct (product_detail_found_or_404 7 (snd (init_db (mkWorld None [])))
                (insert_rows seed_products empty_table) eq_refl eq_refl)
      as [_ Habsent].
    apply Habsent. intros row Hin. simpl in Hin.
    destruct Hin as [<- | [<- | [<- | []]]]; discriminate.
Defined.

(** X2.  An id beyond SQLite's 64-bit range never reaches the not-found
    page.  With the products table in place, binding it raises
    [OverflowError]; without the table the statement cannot be prepared
    and the lookup raises [OperationalError] before the id is looked at.
    Either way the session and the product rows are left alone. *)
Theorem product_detail_overflow (n : Z) (w : world) :
  fits_int64 n = false ->
  fst (product_detail n w) =
    match products (get_connection w) with
    | Some _ => Raise OverflowError
    | None => Raise OperationalError
    end /\
  session (snd (product_detail n w)) = session w /\
  product_rows (snd (product_detail n w)) = product_rows w.
Proof.
  intros Hn. unfold product_detail.
  destruct (products (get_connection w)) as [t |] eqn:Ht.
  - rewrite (bind_raise _ _ _ _ _ (fetch_product_overflow n w t Ht Hn)).
    repeat split.
  - rewrite (bind_raise _ _ _ _ _ (fetch_product_no_table n w Ht)).
    repeat split.
Qed.

Lemma product_detail_overflow_witness :
  fst (product_detail 9223372036854775808 (snd (init_db (mkWorld None [])))) =
  Raise OverflowError.
Proof.
  destruct (product_detail_overflow 9223372036854775808
              (snd (init_db (mkWorld None []))) eq_refl) as [H _].
  exact H.
Defined.

(** ** What a request leaves alone *)

Lemma with_connection_keeps_session {A} (body : ST connection A) :
  preserves session (with_connection body).
Proof.
  intros w. unfold with_connection.
  destruct (body _) as [[a | e] c]; reflexivity.
Qed.

Lemma fetch_product_keeps_session (n : Z) :
  preserves session (fetch_product n).
Proof. intros w. now rewrite fetch_product_state. Qed.

Lemma fetch_products_keeps_session : preserves session fetch_products.
Proof.
  unfold fetch_products. apply preserves_bind.
  - apply with_connection_keeps_session.
  - intros rows. apply preserves_ret.
Qed.

Lemma view_cart_loop_keeps_session (entries : list (string * Z)) :
  forall acc total, preserves session (view_cart_loop entries acc total).
Proof.
  induction entries as [| [k q] rest IH]; intros acc total; simpl.
  - apply preserves_ret.
  - destruct (py_int k) as [n |]; [| apply preserves_raise].
    apply preserves_bind; [apply fetch_product_keeps_session |].
    intros [product |]; apply IH.
Qed.

Lemma get_views_keep_session (now : string) (r : request) :
  is_get r = true -> preserves session (dispatch now r).
Proof.
  destruct r as [| n | | form | form |]; simpl; try discriminate; intros _.
  - unfold index. apply preserves_bind; [apply fetch_products_keeps_session |].
    intros ps. apply preserves_bind; [apply get_cart_preserves |].
    intros c. apply preserves_ret.
  - unfold product_detail.
    apply preserves_bind; [apply fetch_product_keeps_session |].
    intros [product |]; apply preserves_ret.
  - unfold view_cart. apply preserves_bind; [apply get_cart_preserves |].
    intros c. apply preserves_bind; [apply view_cart_loop_keeps_session |].
    intros res. apply preserves_ret.
Qed.

Lemma ensure_database_keeps_session : preserves session ensure_database.
Proof.
  intros [f s]. destruct (ensure_database_run f) as [db Hdb]. now rewrite Hdb.
Qed.

Lemma checkout_declined (now : string) (w : world) :
  cart_of w = [] -> checkout now w = (Ok (Redirect "/"), w).
Proof.
  intros Hc. unfold checkout.
  rewrite (bind_ok _ _ _ _ _ (get_cart_run w)), Hc. reflexivity.
Qed.

Lemma checkout_insert_fails (now : string) (w : world) :
  cart_of w <> [] ->
  orders_open w = false ->
  checkout now w = (Raise OperationalError, connected w).
Proof.
  intros Hne Ho. unfold checkout.
  rewrite (bind_ok _ _ _ _ _ (get_cart_run w)).
  destruct (cart_of w) as [| e rest]; [congruence |].
  change (is_empty (e :: rest)) with false. cbv iota.
  unfold orders_open in Ho.
  unfold bind, with_connection, execute, insert_order. simpl working.
  destruct (orders (get_connection w)) as [t |]; [| reflexivity].
  destruct (table_full t); [reflexivity | discriminate].
Qed.

(** The three ways checkout can end. *)
Lemma checkout_cases (now : string) (w : world) :
  checkout now w = (Ok (Redirect "/"), w) \/
  checkout now w = (Raise OperationalError, connected w) \/
  exists t,
    orders (get_connection w) = Some t /\
    table_full t = false /\
    checkout now w =
    (Ok (render_template "checkout.html" NoArgs),
     mkWorld
       (Some (mkDatabase (products (get_connection w))
                (Some (insert_row (mkOrderColumns now) t))
                (order_items (get_connection w))))
       (pop "cart" (session w))).
Proof.
  destruct (cart_of w) as [| e rest] eqn:Hc.
  - left. now apply checkout_declined.
  - assert (Hne : cart_of w <> []) by (rewrite Hc; discriminate).
    destruct (orders_open w) eqn:Hopen.
    + unfold orders_open in Hopen.
      destruct (orders (get_connection w)) as [t |] eqn:Ho; [| discriminate].
      destruct (table_full t) eqn:Hfull; [discriminate |].
      right. right. exists t. split; [reflexivity |]. split; [exact Hfull |].
      now apply checkout_run.
    + right. left. now apply checkout_insert_fails.
Qed.

(** Every view but checkout reads the store without writing it. *)
Lemma dispatch_keeps {X} (obs : database -> X) (now : string) (r : request) :
  (r = POST_checkout -> preserves obs (insert_order now)) ->
  preserves (fun w => obs (get_connection w)) (dispatch now r).
Proof.
  intros Hins. destruct r as [| n | | form | form |]; simpl.
  - unfold index. apply preserves_bind; [apply fetch_products_keeps |].
    intros ps. apply preserves_bind; [apply get_cart_preserves |].
    intros c. apply preserves_ret.
  - unfold product_detail.
    apply preserves_bind; [apply fetch_product_keeps |].
    intros [product |]; apply preserves_ret.
  - unfold view_cart. apply preserves_bind; [apply get_cart_preserves |].
    intros c. apply preserves_bind; [apply view_cart_loop_keeps |].
    intros res. apply preserves_ret.
  - unfold add_to_cart. destruct (get "product_id" form) as [p |];
      [| apply preserves_ret].
    destruct (falsy (Some p)); [apply preserves_ret |].
    apply preserves_bind; [apply get_cart_preserves |].
    intros c. apply preserves_bind; [| intros; apply preserves_ret].
    apply (preserves_session_write obs).
  - unfold remove_from_cart. destruct (get "product_id" form) as [p |];
      [| apply preserves_ret].
    destruct (falsy (Some p)); [apply preserves_ret |].
    apply preserves_bind; [apply get_cart_preserves |].
    intros c. apply preserves_bind; [| intros; apply preserves_ret].
    apply (preserves_session_write obs).
  - unfold checkout. apply preserves_bind; [apply get_cart_preserves |].
    intros c. destruct (is_empty c); [apply preserves_ret |].
    apply preserves_bind.
    + apply preserves_with_connection. now apply Hins.
    + intros _. apply preserves_bind; [| intros; apply preserves_ret].
      apply (preserves_session_write obs).
Qed.

Lemma insert_order_keeps_products (now : string) :
  preserves (fun db => table_rows (products db)) (insert_order now).
Proof.
  intros db. unfold insert_order.
  destruct (orders db) as [t |]; [| reflexivity]. now destruct (table_full t).
Qed.

Lemma ensure_database_existing (w : world) :
  db_file w <> None -> ensure_database w = (Ok tt, w).
Proof.
  unfold ensure_database. destruct (db_file w); [reflexivity | congruence].
Qed.

(** X3.  The catalogue is read-only for the views: no view function ever
    changes the rows of the products table, however it ends.  A whole
    request on an existing store keeps them too, and a first request on a
    missing store leaves exactly the three seed rows under the ids 1, 2
    and 3, whichever route it takes. *)
Theorem catalogue_read_only (now : string) (r : request) (w : world) :
  product_rows (snd (dispatch now r w)) = product_rows w /\
  match db_file w with
  | Some _ => product_rows (snd (serve now r w)) = product_rows w
  | None =>
      map fst (product_rows (snd (serve now r w))) = [1; 2; 3] /\
      map snd (product_rows (snd (serve now r w))) = seed_products
  end.
Proof.
  assert (Hd : forall w0,
            product_rows (snd (dispatch now r w0)) = product_rows w0).
  { intros w0.
    apply (dispatch_keeps (fun db => table_rows (products db)) now r).
    intros _. apply insert_order_keeps_products. }
  split; [apply Hd |].
  rewrite serve_run, Hd.
  destruct w as [[db |] s]; simpl db_file; cbv iota.
  - reflexivity.
  - split; reflexivity.
Qed.

Lemma table_rows_or_new {R} (t : option (table R)) :
  table_rows (Some (table_or_new t)) = table_rows t.
Proof. now destruct t. Qed.

Lemma ensure_database_keeps_orders (w : world) :
  order_rows (snd (ensure_database w)) = order_rows w.
Proof.
  unfold ensure_database. destruct (db_file w) eqn:E; [reflexivity |].
  rewrite init_db_run. unfold order_rows. simpl.
  apply table_rows_or_new.
Qed.

Lemma checkout_orders (now : string) (w : world) :
  order_rows (snd (checkout now w)) = order_rows w \/
  exists i,
    order_rows (snd (checkout now w)) =
    order_rows w ++ [(i, mkOrderColumns now)].
Proof.
  destruct (checkout_cases now w) as [H | [H | (t & Ht & _ & H)]]; rewrite H.
  - now left.
  - now left.
  - right. exists (next_rowid t). unfold order_rows. simpl. now rewrite Ht.
Qed.

(** X4.  Orders are only ever appended, and only by checkout: a request
    on any other route leaves the rows of the orders table as they were,
    and a checkout request either leaves them or appends one row stamped
    with the clock reading of that request. *)
Theorem orders_change_only_at_checkout (now : string) (r : request)
    (w : world) :
  (r <> POST_checkout ->
   order_rows (snd (serve now r w)) = order_rows w) /\
  (order_rows (snd (serve now r w)) = order_rows w \/
   exists i,
     order_rows (snd (serve now r w)) =
     order_rows w ++ [(i, mkOrderColumns now)]).
Proof.
  assert (Hother : r <> POST_checkout ->
            order_rows (snd (serve now r w)) = order_rows w).
  { intros Hr. rewrite serve_run.
    rewrite <- (ensure_database_keeps_orders w).
    apply (dispatch_keeps (fun db => table_rows (orders db)) now r).
    intros ->. congruence. }
  split; [exact Hother |].
  destruct r as [| n | | form | form |];
    try (left; apply Hother; discriminate).
  rewrite serve_run. unfold dispatch.
  rewrite <- (ensure_database_keeps_orders w).
  apply checkout_orders.
Qed.

Lemma orders_change_only_at_checkout_witness :
  let w := mkWorld None [("cart", PDict [("1", 1)])] in
  order_rows (snd (serve "2024-01-01 00:00:00" GET_cart w)) = order_rows w.
Proof.
  cbv zeta.
  destruct (orders_change_only_at_checkout "2024-01-01 00:00:00" GET_cart
              (mkWorld None [("cart", PDict [("1", 1)])])) as [H _].
  apply H. discriminate.
Defined.

Lemma checkout_session (now : string) (w : world) :
  session (snd (checkout now w)) = session w \/
  session (snd (checkout now w)) = pop "cart" (session w).
Proof.
  destruct (checkout_cases now w) as [H | [H | (t & _ & _ & H)]]; rewrite H;
    [left | left | right]; reflexivity.
Qed.

Lemma cart_views_session (form : dict string) (w : world) :
  (session (snd (add_to_cart form w)) = session w \/
   exists cart,
     session (snd (add_to_cart form w)) = set "cart" (PDict cart) (session w)) /\
  (session (snd (remove_from_cart form w)) = session w \/
   exists cart,
     session (snd (remove_from_cart form w)) =
     set "cart" (PDict cart) (session w)).
Proof.
  destruct (falsy (get "product_id" form)) eqn:Hfalsy.
  - rewrite (add_to_cart_falsy form w Hfalsy),
      (remove_from_cart_falsy form w Hfalsy). split; now left.
  - destruct (get "product_id" form) as [p |] eqn:Hf; [| discriminate].
    assert (Hp : p <> "") by (intros ->; discriminate).
    rewrite (add_to_cart_run form p w Hf Hp),
      (remove_from_cart_run form p w Hf Hp).
    split; right; eexists; reflexivity.
Qed.

(** X5.  A request touches the session under the key ["cart"] only: every
    other key reads the same afterwards, on every route and however the
    request ends; and the three GET routes leave the whole session as it
    was. *)
Theorem session_only_cart_key (now : string) (r : request) (w : world) :
  (is_get r = true -> session (snd (serve now r w)) = session w) /\
  (forall k, k <> "cart" ->
     get k (session (snd (serve now r w))) = get k (session w)).
Proof.
  rewrite serve_run.
  pose proof (ensure_database_keeps_session w) as Hhook. simpl in Hhook.
  split.
  - intros Hget. rewrite (get_views_keep_session now r Hget). exact Hhook.
  - intros k Hk. rewrite <- Hhook.
    set (w1 := snd (ensure_database w)).
    destruct r as [| n | | form | form |].
    + now rewrite (get_views_keep_session now GET_index eq_refl).
    + now rewrite (get_views_keep_session now (GET_product n) eq_refl).
    + now rewrite (get_views_keep_session now GET_cart eq_refl).
    + destruct (cart_views_session form w1) as [[H | [c H]] _];
        simpl dispatch; rewrite H; [reflexivity |].
      apply get_set_ne. congruence.
    + destruct (cart_views_session form w1) as [_ [H | [c H]]];
        simpl dispatch; rewrite H; [reflexivity |].
      apply get_set_ne. congruence.
    + destruct (checkout_session now w1) as [H | H];
        simpl dispatch; rewrite H; [reflexivity |].
      apply get_pop_ne. congruence.
Qed.

Lemma session_only_cart_key_witness :
  let w := mkWorld None [("user", PStr "ada"); ("cart", PDict [("abc", 1)])] in
  session (snd (serve "2024-01-01 00:00:00" GET_cart w)) = session w.
Proof.
  cbv zeta.
  destruct (session_only_cart_key "2024-01-01 00:00:00" GET_cart
              (mkWorld None
                 [("user", PStr "ada"); ("cart", PDict [("abc", 1)])]))
    as [H _].
  apply H. reflexivity.
Defined.

(** ** The cart as a dictionary *)

Lemma set_same {V} (k : string) (v : V) (d : dict V) :
  get k d = Some v -> set k v d = d.
Proof.
  induction d as [| [k' v'] rest IH]; simpl; [discriminate |].
  destruct (String.eqb k k') eqn:E.
  - intros [= ->]. apply String.eqb_eq in E. now subst.
  - intros H. now rewrite IH.
Qed.

(** X6.  Saving a cart and reading it back gives that cart, whatever the
    session held under ["cart"] before, and the save touches neither the
    store nor any other session key.  The other way round, saving the
    dictionary that the session already holds changes nothing. *)
Theorem save_cart_get_cart (cart : dict Z) (w : world) :
  get_cart (snd (save_cart cart w)) = (Ok cart, snd (save_cart cart w)) /\
  db_file (snd (save_cart cart w)) = db_file w /\
  (forall k, k <> "cart" ->
     get k (session (snd (save_cart cart w))) = get k (session w)) /\
  (get "cart" (session w) = Some (PDict cart) ->
     snd (save_cart cart w) = w).
Proof.
  rewrite save_cart_run. simpl snd. repeat split.
  - rewrite get_cart_run. now rewrite cart_of_saved.
  - intros k Hk. simpl. apply get_set_ne. congruence.
  - intros Hs. rewrite (set_same _ _ _ Hs). now destruct w.
Qed.

Lemma save_cart_get_cart_witness :
  let w := mkWorld None [("cart", PDict [("1", 2)])] in
  snd (save_cart [("1", 2)] w) = w.
Proof.
  cbv zeta.
  destruct (save_cart_get_cart [("1", 2)]
              (mkWorld None [("cart", PDict [("1", 2)])]))
    as (_ & _ & _ & H).
  apply H. reflexivity.
Defined.

Lemma add_to_cart_cart (form : dict string) (p : string) (w : world) :
  get "product_id" form = Some p -> p <> "" ->
  cart_of (snd (add_to_cart form w)) =
  set p (match get p (cart_of w) with Some q => q | None => 0 end + 1)
    (cart_of w).
Proof.
  intros Hf Hp. rewrite (add_to_cart_run form p w Hf Hp). simpl snd.
  apply cart_of_saved.
Qed.

Lemma remove_from_cart_cart (form : dict string) (p : string) (w : world) :
  get "product_id" form = Some p -> p <> "" ->
  cart_of (snd (remove_from_cart form w)) = pop p (cart_of w).
Proof.
  intros Hf Hp. rewrite (remove_from_cart_run form p w Hf Hp). simpl snd.
  apply cart_of_saved.
Qed.

(** X7.  Each add request counts for exactly one, with no upper bound:
    after [n + 1] add requests for a non-empty product id its quantity is
    the previous one (zero when it was not in the cart) plus [n + 1], and
    no other entry has changed. *)
Theorem add_times_quantity (form : dict string) (p : string) (w : world)
    (n : nat) :
  get "product_id" form = Some p ->
  p <> "" ->
  get p (cart_of (add_times (S n) form w)) =
    Some (match get p (cart_of w) with Some q => q | None => 0 end
          + Z.of_nat (S n)) /\
  (forall k, k <> p ->
     get k (cart_of (add_times (S n) form w)) = get k (cart_of w)).
Proof.
  intros Hf Hp. induction n as [| n [IHp IHk]].
  - unfold add_times. simpl Nat.iter.
    rewrite (add_to_cart_cart form p w Hf Hp). split.
    + rewrite get_set_eq. reflexivity.
    + intros k Hk. apply get_set_ne. congruence.
  - change (add_times (S (S n)) form w)
      with (snd (add_to_cart form (add_times (S n) form w))).
    rewrite (add_to_cart_cart form p _ Hf Hp). split.
    + rewrite get_set_eq, IHp. f_equal. lia.
    + intros k Hk. rewrite get_set_ne by congruence. now apply IHk.
Qed.

Lemma add_times_quantity_witness :
  get "7" (cart_of (add_times 3 [("product_id", "7")]
                      (mkWorld None [("cart", PDict [("7", 2)])]))) = Some 5.
Proof.
  destruct (add_times_quantity [("product_id", "7")] "7"
              (mkWorld None [("cart", PDict [("7", 2)])]) 2)
    as [H _]; [reflexivity | discriminate | exact H].
Defined.

Lemma pop_set {V} (k : string) (v : V) (d : dict V) :
  pop k (set k v d) = pop k d.
Proof.
  induction d as [| [k' v'] rest IH]; simpl.
  - now rewrite String.eqb_refl.
  - destruct (String.eqb k k') eqn:E; simpl.
    + now rewrite String.eqb_refl.
    + now rewrite E, IH.
Qed.

(** X8.  Remove undoes any number of adds at once: after an add request
    for a non-empty product id, a remove request for it leaves the cart
    that a remove alone would have left, and the cart as it was before the
    add when the product was not in it. *)
Theorem remove_after_add (form : dict string) (p : string) (w : world) :
  get "product_id" form = Some p ->
  p <> "" ->
  cart_of (snd (remove_from_cart form (snd (add_to_cart form w)))) =
    cart_of (snd (remove_from_cart form w)) /\
  (get p (cart_of w) = None ->
   cart_of (snd (remove_from_cart form (snd (add_to_cart form w)))) =
     cart_of w).
Proof.
  intros Hf Hp.
  rewrite !(remove_from_cart_cart form p _ Hf Hp).
  rewrite (add_to_cart_cart form p w Hf Hp), pop_set.
  split; [reflexivity | apply pop_absent].
Qed.

Lemma remove_after_add_witness :
  let form := [("product_id", "3")] in
  let w := mkWorld None [("cart", PDict [("1", 2)])] in
  cart_of (snd (remove_from_cart form (snd (add_to_cart form w)))) =
  [("1", 2)].
Proof.
  cbv zeta.
  destruct (remove_after_add [("product_id", "3")] "3"
              (mkWorld None [("cart", PDict [("1", 2)])]))
    as [_ H]; [reflexivity | discriminate |].
  apply H. reflexivity.
Defined.

Lemma keys_set_order {V} (k : string) (v : V) (d : dict V) :
  map fst (set k v d) =
  if contains k d then map fst d else map fst d ++ [k].
Proof.
  unfold contains. induction d as [| [k' v'] rest IH]; simpl; [reflexivity |].
  destruct (String.eqb k k') eqn:E; simpl.
  - apply String.eqb_eq in E. now subst.
  - rewrite IH. now destruct (get k rest).
Qed.

Lemma pop_filter {V} (k : string) (d : dict V) :
  pop k d = filter (fun e => negb (String.eqb k (fst e))) d.
Proof.
  induction d as [| [k' v'] rest IH]; simpl; [reflexivity |].
  destruct (String.eqb k k'); simpl; now rewrite IH.
Qed.

(** X9.  The order of the cart.  Within a request the dictionary keeps
    its order: adding a product that is already there leaves the sequence
    of keys as it was, a new product's key goes last, and removing keeps
    the remaining entries in their order.  But the cart travels to the
    next request through the session cookie, which is written with sorted
    keys: whatever a cart view left, the next request finds the same
    entries in ascending order of their keys, and that is the order in
    which its cart page walks through them. *)
Theorem cart_order_kept (form : dict string) (p : string) (w : world) :
  get "product_id" form = Some p ->
  p <> "" ->
  let added := snd (add_to_cart form w) in
  let removed := snd (remove_from_cart form w) in
  map fst (cart_of added) =
    (if contains p (cart_of w) then map fst (cart_of w)
     else map fst (cart_of w) ++ [p]) /\
  cart_of removed =
    filter (fun e => negb (String.eqb p (fst e))) (cart_of w) /\
  Sorted key_le (cart_of (next_request added)) /\
  Permutation (cart_of (next_request added)) (cart_of added) /\
  (forall k, get k (cart_of (next_request added)) = get k (cart_of added)) /\
  Sorted key_le (cart_of (next_request removed)) /\
  Permutation (cart_of (next_request removed)) (cart_of removed) /\
  view_cart (next_request added) =
    bind (view_cart_loop (sort_keys (cart_of added)) [] 0)
      (fun r =>
         ret (render_template "cart.html" (CartArgs (fst r) (snd r))))
      (next_request added).
Proof.
  intros Hf Hp. cbv zeta.
  rewrite !cart_of_next_request.
  rewrite (add_to_cart_cart form p w Hf Hp),
    (remove_from_cart_cart form p w Hf Hp).
  split; [apply keys_set_order |].
  split; [apply pop_filter |].
  split; [apply sort_keys_sorted |].
  split; [apply sort_keys_perm |].
  split; [intros k; apply get_sort_keys |].
  split; [apply sort_keys_sorted |].
  split; [apply sort_keys_perm |].
  unfold view_cart.
  rewrite (bind_ok _ _ _ _ _ (get_cart_run _)), cart_of_next_request.
  now rewrite (add_to_cart_cart form p w Hf Hp).
Qed.

Lemma cart_order_kept_witness :
  let w := mkWorld None [("cart", PDict [("2", 1); ("10", 3)])] in
  map fst (cart_of (snd (add_to_cart [("product_id", "2")] w))) =
    ["2"; "10"] /\
  map fst (cart_of (snd (add_to_cart [("product_id", "1")] w))) =
    ["2"; "10"; "1"] /\
  map fst (cart_of (next_request
                      (snd (add_to_cart [("product_id", "1")] w)))) =
    ["1"; "10"; "2"] /\
  Sorted key_le
    (cart_of (next_request (snd (add_to_cart [("product_id", "1")] w)))).
Proof.
  cbv zeta.
  destruct (cart_order_kept [("product_id", "2")] "2"
              (mkWorld None [("cart", PDict [("2", 1); ("10", 3)])]))
    as [H1 _]; [reflexivity | discriminate |].
  destruct (cart_order_kept [("product_id", "1")] "1"
              (mkWorld None [("cart", PDict [("2", 1); ("10", 3)])]))
    as (H2 & _ & H3 & _); [reflexivity | discriminate |].
  split; [exact H1 |]. split; [exact H2 |]. split; [reflexivity | exact H3].
Defined.

(** ** The cart size *)

Lemma sum_values_set (k : string) (v : Z) (d : dict Z) :
  py_sum (values (set k v d)) =
  py_sum (values d) - match get k d with Some q => q | None => 0 end + v.
Proof.
  unfold values. induction d as [| [k' v'] rest IH]; simpl.
  - unfold py_sum. simpl. lia.
  - destruct (String.eqb k k'); simpl map.
    + rewrite !py_sum_cons. simpl. lia.
    + rewrite !py_sum_cons, IH. simpl. lia.
Qed.

Lemma get_notin {V} (k : string) (d : dict V) :
  ~ In k (map fst d) -> get k d = None.
Proof.
  induction d as [| [k' v'] rest IH]; simpl; [reflexivity |].
  intros Hnotin. destruct (String.eqb k k') eqn:E.
  - apply String.eqb_eq in E. subst. tauto.
  - apply IH. tauto.
Qed.

Lemma sum_values_pop (k : string) (d : dict Z) :
  wf d ->
  py_sum (values (pop k d)) =
  py_sum (values d) - match get k d with Some q => q | None => 0 end.
Proof.
  unfold wf, values. induction d as [| [k' v'] rest IH]; simpl; intros Hwf.
  - unfold py_sum. simpl. lia.
  - inversion Hwf as [| ? ? Hnotin Hrest]; subst.
    destruct (String.eqb k k') eqn:E.
    + apply String.eqb_eq in E. subst k'.
      rewrite (pop_absent k rest (get_notin k rest Hnotin)).
      rewrite py_sum_cons. simpl. lia.
    + simpl map. rewrite !py_sum_cons, (IH Hrest). simpl. lia.
Qed.

(** X10.  The cart size, which the catalogue page shows as badge, moves
    with the requests: an add request for a non-empty product id raises it
    by exactly one, and on a cart with distinct keys a remove request
    lowers it by the whole quantity of the product (by nothing when the
    product is not in the cart). *)
Theorem cart_size_arithmetic (form : dict string) (p : string) (w : world) :
  get "product_id" form = Some p ->
  p <> "" ->
  py_sum (values (cart_of (snd (add_to_cart form w)))) =
    py_sum (values (cart_of w)) + 1 /\
  (wf (cart_of w) ->
   py_sum (values (cart_of (snd (remove_from_cart form w)))) =
     py_sum (values (cart_of w))
     - match get p (cart_of w) with Some q => q | None => 0 end).
Proof.
  intros Hf Hp.
  rewrite (add_to_cart_cart form p w Hf Hp),
    (remove_from_cart_cart form p w Hf Hp).
  split.
  - rewrite sum_values_set. lia.
  - apply sum_values_pop.
Qed.

Lemma cart_size_arithmetic_witness :
  let form := [("product_id", "1")] in
  let w := mkWorld None [("cart", PDict [("2", 1); ("1", 3)])] in
  py_sum (values (cart_of (snd (add_to_cart form w)))) = 5 /\
  py_sum (values (cart_of (snd (remove_from_cart form w)))) = 1.
Proof.
  cbv zeta.
  destruct (cart_size_arithmetic [("product_id", "1")] "1"
              (mkWorld None [("cart", PDict [("2", 1); ("1", 3)])]))
    as [Hadd Hremove]; [reflexivity | discriminate |].
  split; [exact Hadd |].
  apply Hremove. unfold wf. simpl.
  repeat constructor; simpl; intuition discriminate.
Defined.

(** ** The cart page *)

Lemma py_sum_app (xs ys : list Z) : py_sum (xs ++ ys) = py_sum xs + py_sum ys.
Proof.
  induction xs as [| x xs IH]; simpl app.
  - change (py_sum []) with 0. lia.
  - rewrite !py_sum_cons, IH. lia.
Qed.

Lemma view_cart_loop_consistent (entries : list (string * Z)) :
  forall (w : world) (acc : list cart_item) (total : Z)
         (res : list cart_item * Z),
    fst (view_cart_loop entries acc total w) = Ok res ->
    total = py_sum (map item_total acc) ->
    Forall item_consistent acc ->
    snd res = py_sum (map item_total (fst res)) /\
    Forall item_consistent (fst res) /\
    (List.length (fst res) <= List.length acc + List.length entries)%nat.
Proof.
  induction entries as [| [k q] rest IH]; intros w acc total res Hrun Htot Hacc.
  - simpl in Hrun. injection Hrun as <-. simpl. repeat split; auto. lia.
  - simpl in Hrun. destruct (py_int k) as [n |]; [| discriminate].
    unfold bind in Hrun.
    destruct (fetch_product n w) as [[[product |] | e] w1]; [| | discriminate].
    + apply IH in Hrun.
      * destruct Hrun as (H1 & H2 & H3). repeat split; auto.
        rewrite length_app in H3. simpl in *. lia.
      * rewrite map_app, py_sum_app. simpl map. rewrite py_sum_cons.
        change (py_sum []) with 0. simpl item_total. lia.
      * apply Forall_app. split; [exact Hacc |].
        constructor; [reflexivity | constructor].
    + apply IH in Hrun; auto.
      destruct Hrun as (H1 & H2 & H3). repeat split; auto. simpl. lia.
Qed.

(** X11.  Whenever the cart page is rendered, its figures agree: the
    template is cart.html with status 200, every listed line has as total
    its product's unit price times its quantity, the grand total is the
    sum of the line totals, and there are at most as many lines as cart
    entries. *)
Theorem cart_page_consistent (w : world) (resp : response) :
  fst (view_cart w) = Ok resp ->
  exists cart_lines total,
    resp = Render "cart.html" (CartArgs cart_lines total) 200 /\
    total = py_sum (map item_total cart_lines) /\
    Forall item_consistent cart_lines /\
    (List.length cart_lines <= List.length (cart_of w))%nat.
Proof.
  unfold view_cart. rewrite (bind_ok _ _ _ _ _ (get_cart_run w)).
  unfold items, bind.
  destruct (view_cart_loop (cart_of w) [] 0 w) as [[res | e] w1] eqn:Hloop;
    [| discriminate].
  simpl. intros [= <-].
  destruct (view_cart_loop_consistent (cart_of w) w [] 0 res) as (H1 & H2 & H3).
  - now rewrite Hloop.
  - reflexivity.
  - constructor.
  - exists (fst res), (snd res). repeat split; assumption.
Qed.

Lemma cart_page_consistent_witness :
  exists cart_lines total,
    Render "cart.html"
      (CartArgs [mkCartItem (mkProduct 2 "pen" "blue" 5 "u") 3 15] 15) 200 =
    Render "cart.html" (CartArgs cart_lines total) 200 /\
    total = py_sum (map item_total cart_lines) /\
    Forall item_consistent cart_lines /\
    (List.length cart_lines <= 2)%nat.
Proof.
  apply (cart_page_consistent
           (mkWorld
              (Some (mkDatabase
                       (Some (mkTable [(2, mkProductColumns "pen" "blue" 5 "u")] 2))
                       None None))
              [("cart", PDict [("2", 3); ("50", 1)])])).
  reflexivity.
Defined.

(** X12.  With the products table in place the cart page is rendered
    exactly when every cart key is an integer literal within SQLite's
    range.  Then it lists the entries whose product exists, in cart order,
    and totals unit price times quantity over them; otherwise the request
    raises [ValueError] or [OverflowError]. *)
Theorem cart_page_renders_iff_keys_ok (w : world)
    (t : table product_columns) :
  products (get_connection w) = Some t ->
  match forallb (fun e => key_ok (fst e)) (cart_of w) with
  | true =>
      fst (view_cart w) =
      Ok (Render "cart.html"
            (CartArgs (resolved_items w (cart_of w))
               (resolved_total w (cart_of w))) 200)
  | false =>
      fst (view_cart w) = Raise ValueError \/
      fst (view_cart w) = Raise OverflowError
  end.
Proof.
  intros Ht.
  destruct (forallb (fun e => key_ok (fst e)) (cart_of w)) eqn:Hkeys.
  - now apply (view_cart_total w t).
  - now apply (view_cart_bad_key w t).
Qed.

Lemma cart_page_renders_iff_keys_ok_witness :
  let w := mkWorld (db_file (snd (init_db (mkWorld None []))))
             [("cart", PDict [("50", 1); ("1", 2)])] in
  exists p,
    fst (view_cart w) =
    Ok (Render "cart.html" (CartArgs [mkCartItem p 2 2900000] 2900000) 200).
Proof.
  cbv zeta. eexists.
  apply (cart_page_renders_iff_keys_ok
           (mkWorld (db_file (snd (init_db (mkWorld None []))))
              [("cart", PDict [("50", 1); ("1", 2)])])
           (insert_rows seed_products empty_table) eq_refl).
Defined.

(** ** Checkout, all cases *)

Lemma order_rows_connected (w : world) : order_rows (connected w) = order_rows w.
Proof. reflexivity. Qed.

(** X13.  Checkout clears the cart exactly when it has recorded an order.
    When it answers with the confirmation page, one row stamped with the
    clock reading has been appended to the orders table and the cart is
    gone from the session; in every other case (an empty cart, or the
    insert failing) the orders table has the same rows and the session is
    untouched, so a failed checkout loses no cart. *)
Theorem checkout_clears_cart_iff_recorded (now : string) (w : world) :
  match fst (checkout now w) with
  | Ok (Render _ _ _) =>
      (exists i,
         order_rows (snd (checkout now w)) =
         order_rows w ++ [(i, mkOrderColumns now)]) /\
      session (snd (checkout now w)) = pop "cart" (session w) /\
      cart_of w <> []
  | Ok (Redirect _) =>
      snd (checkout now w) = w /\ cart_of w = []
  | Raise _ =>
      order_rows (snd (checkout now w)) = order_rows w /\
      session (snd (checkout now w)) = session w /\
      cart_of w <> []
  end.
Proof.
  destruct (cart_of w) as [| e rest] eqn:Hc.
  - rewrite (checkout_declined now w Hc). now split.
  - assert (Hne : cart_of w <> []) by (rewrite Hc; discriminate).
    destruct (orders_open w) eqn:Hopen.
    + unfold orders_open in Hopen.
      destruct (orders (get_connection w)) as [t |] eqn:Ho; [| discriminate].
      destruct (table_full t) eqn:Hfull; [discriminate |].
      rewrite (checkout_run now w t Hne Ho Hfull). simpl fst. simpl snd.
      repeat split; [| discriminate].
      exists (next_rowid t). unfold order_rows. simpl. now rewrite Ho.
    + rewrite (checkout_insert_fails now w Hne Hopen). simpl.
      repeat split. discriminate.
Qed.

(** ** The cart routes never fail *)

(** X14.  A POST to /cart/remove always answers with a redirect to /cart,
    with or without a [product_id], whatever the store and the session
    hold; and neither cart route writes the store: after the hook has run,
    the database file is what the view finds and what it leaves. *)
Theorem cart_posts_never_fail (now : string) (form : dict string)
    (w : world) :
  fst (serve now (POST_cart_remove form) w) = Ok (Redirect "/cart") /\
  db_file (snd (serve now (POST_cart_remove form) w)) =
    db_file (snd (ensure_database w)) /\
  db_file (snd (serve now (POST_cart_add form) w)) =
    db_file (snd (ensure_database w)).
Proof.
  rewrite !serve_run. unfold dispatch.
  set (w1 := snd (ensure_database w)).
  destruct (falsy (get "product_id" form)) eqn:Hfalsy.
  - rewrite (add_to_cart_falsy form w1 Hfalsy),
      (remove_from_cart_falsy form w1 Hfalsy). repeat split.
  - destruct (get "product_id" form) as [p |] eqn:Hf; [| discriminate].
    assert (Hp : p <> "") by (intros ->; discriminate).
    rewrite (add_to_cart_run form p w1 Hf Hp),
      (remove_from_cart_run form p w1 Hf Hp). repeat split.
Qed.

(** ** The store along a run of requests *)

Lemma insert_order_keeps_schema (now : string) :
  preserves schema_ready (insert_order now).
Proof.
  intros [[tp |] [to |] [ti |]]; unfold insert_order; simpl;
    try destruct (table_full to); reflexivity.
Qed.

Lemma ensure_database_ready (w : world) :
  store_ready w = true ->
  exists db,
    ensure_database w = (Ok tt, mkWorld (Some db) (session w)) /\
    schema_ready db = true.
Proof.
  destruct w as [[db |] s]; unfold store_ready; simpl db_file; intros Hready.
  - exists db. split; [reflexivity | exact Hready].
  - eexists. unfold ensure_database. simpl db_file. cbv iota.
    rewrite init_db_fresh. split; reflexivity.
Qed.

Lemma schema_ready_tables (db : database) :
  schema_ready db = true ->
  exists tp to ti,
    products db = Some tp /\ orders db = Some to /\ order_items db = Some ti.
Proof.
  unfold schema_ready.
  destruct (products db) as [tp |], (orders db) as [to |],
    (order_items db) as [ti |]; try discriminate.
  intros _. now exists tp, to, ti.
Qed.

Lemma serve_keeps_store_ready (now : string) (r : request) (w : world) :
  store_ready w = true -> store_ready (snd (serve now r w)) = true.
Proof.
  intros Hready. rewrite serve_run.
  destruct (ensure_database_ready w Hready) as (db & Hhook & Hdb).
  rewrite Hhook. simpl snd.
  pose proof (dispatch_keeps schema_ready now r
                (fun _ => insert_order_keeps_schema now)
                (mkWorld (Some db) (session w))) as Hkeep.
  simpl in Hkeep. unfold store_ready.
  destruct (db_file (snd (dispatch now r (mkWorld (Some db) (session w)))))
    as [db' |] eqn:Hfile; [| reflexivity].
  unfold get_connection in Hkeep. rewrite Hfile in Hkeep.
  rewrite Hkeep. exact Hdb.
Qed.

(** X15.  On a store that is missing or has its three tables, requests go
    through: the catalogue page and both cart routes always produce a
    response, a product page does for an id within 64 bits, the cart page
    when every cart key reads as an integer within 64 bits, and checkout
    when the orders table has not run out of ids.  The store is again
    missing-or-complete afterwards. *)
Theorem requests_succeed (now : string) (r : request) (w : world) :
  store_ready w = true ->
  match r with
  | GET_cart => forallb (fun e => key_ok (fst e)) (cart_of w) = true
  | GET_product n => fits_int64 n = true
  | POST_checkout =>
      match orders (get_connection w) with
      | Some t => table_full t = false
      | None => True
      end
  | _ => True
  end ->
  (exists resp, fst (serve now r w) = Ok resp) /\
  store_ready (snd (serve now r w)) = true.
Proof.
  intros Hready Hr. split; [| now apply serve_keeps_store_ready].
  rewrite serve_run.
  destruct (ensure_database_ready w Hready) as (db & Hhook & Hdb).
  rewrite Hhook. simpl snd.
  destruct (schema_ready_tables db Hdb) as (tp & to & ti & Hp & Ho & Hi).
  set (w1 := mkWorld (Some db) (session w)).
  assert (Hcart : cart_of w1 = cart_of w) by reflexivity.
  destruct r as [| n | | form | form |]; unfold dispatch.
  - eexists. now apply (index_run w1 tp).
  - rewrite (product_detail_run n w1 tp Hp Hr).
    destruct (row_with_id n (rows tp)); eexists; reflexivity.
  - eexists. apply (view_cart_total w1 tp Hp). now rewrite Hcart.
  - destruct (falsy (get "product_id" form)) eqn:Hfalsy.
    + rewrite (add_to_cart_falsy form w1 Hfalsy). eexists. reflexivity.
    + destruct (get "product_id" form) as [p |] eqn:Hf; [| discriminate].
      assert (Hne : p <> "") by (intros ->; discriminate).
      rewrite (add_to_cart_run form p w1 Hf Hne). eexists. reflexivity.
  - destruct (falsy (get "product_id" form)) eqn:Hfalsy.
    + rewrite (remove_from_cart_falsy form w1 Hfalsy). eexists. reflexivity.
    + destruct (get "product_id" form) as [p |] eqn:Hf; [| discriminate].
      assert (Hne : p <> "") by (intros ->; discriminate).
      rewrite (remove_from_cart_run form p w1 Hf Hne). eexists. reflexivity.
  - destruct (cart_of w1) as [| e rest] eqn:Hc.
    + rewrite (checkout_declined now w1 Hc). eexists. reflexivity.
    + assert (Hne : cart_of w1 <> []) by (rewrite Hc; discriminate).
      assert (Hroom : table_full to = false).
      { clear - Hhook Ho Hr. destruct w as [[db0 |] s].
        - unfold ensure_database in Hhook. simpl in Hhook.
          assert (Hd : db = db0) by congruence. subst db.
          cbv [get_connection db_file] in Hr. rewrite Ho in Hr. exact Hr.
        - unfold ensure_database in Hhook. simpl db_file in Hhook.
          cbv iota in Hhook. rewrite init_db_fresh in Hhook.
          assert (Hd : db =
                       mkDatabase (Some (insert_rows seed_products empty_table))
                         (Some empty_table) (Some empty_table))
            by congruence.
          subst db. simpl in Ho.
          assert (Ht : to = empty_table) by congruence.
          subst to. reflexivity. }
      rewrite (checkout_run now w1 to Hne Ho Hroom). eexists. reflexivity.
Qed.

Lemma requests_succeed_witness :
  exists resp,
    fst (serve "2024-01-01 00:00:00" GET_cart
           (mkWorld None [("cart", PDict [("2", 1)])])) = Ok resp.
Proof.
  destruct (requests_succeed "2024-01-01 00:00:00" GET_cart
              (mkWorld None [("cart", PDict [("2", 1)])]))
    as [H _]; [reflexivity | reflexivity | exact H].
Defined.

Lemma insert_order_keeps_products_table (now : string) :
  preserves products (insert_order now).
Proof.
  intros db. unfold insert_order.
  destruct (orders db) as [t |]; [| reflexivity]. now destruct (table_full t).
Qed.

(** A relation between the world before and after that every step of a
    view respects is respected by the whole request. *)
Section Respects.

Variable R : world -> world -> Prop.
Hypothesis R_refl : forall w, R w w.
Hypothesis R_trans : forall w1 w2 w3, R w1 w2 -> R w2 w3 -> R w1 w3.
Hypothesis R_session : forall w s, R w (mkWorld (db_file w) s).
Hypothesis R_connection :
  forall A (body : ST connection A) w, R w (snd (with_connection body w)).

Lemma respects_bind {A B} (m : M A) (f : A -> M B) :
  (forall w, R w (snd (m w))) ->
  (forall a w, R w (snd (f a w))) ->
  forall w, R w (snd (bind m f w)).
Proof.
  intros Hm Hf w. unfold bind. specialize (Hm w).
  destruct (m w) as [[a | e] w1]; simpl in Hm.
  - eapply R_trans; [exact Hm | apply Hf].
  - exact Hm.
Qed.

Lemma fetch_product_respects (n : Z) (w : world) :
  R w (snd (fetch_product n w)).
Proof.
  unfold fetch_product. apply respects_bind.
  - intros w0. apply R_connection.
  - intros [row |] w0; apply R_refl.
Qed.

Lemma view_cart_loop_respects (entries : list (string * Z)) :
  forall acc total w, R w (snd (view_cart_loop entries acc total w)).
Proof.
  induction entries as [| [k q] rest IH]; intros acc total w; simpl.
  - apply R_refl.
  - destruct (py_int k) as [n |]; [| apply R_refl].
    apply respects_bind; [apply fetch_product_respects |].
    intros [product |] w0; apply IH.
Qed.

Lemma get_cart_respects (w : world) : R w (snd (get_cart w)).
Proof. rewrite get_cart_run. apply R_refl. Qed.

Lemma dispatch_respects (now : string) (r : request) (w : world) :
  R w (snd (dispatch now r w)).
Proof.
  revert w.
  destruct r as [| n | | form | form |]; simpl.
  - unfold index. apply respects_bind.
    + unfold fetch_products. apply respects_bind.
      * intros w. apply R_connection.
      * intros rows w. apply R_refl.
    + intros ps. apply respects_bind; [apply get_cart_respects |].
      intros c w. apply R_refl.
  - unfold product_detail.
    apply respects_bind; [apply fetch_product_respects |].
    intros [product |] w; apply R_refl.
  - unfold view_cart. apply respects_bind; [apply get_cart_respects |].
    intros c. apply respects_bind; [apply view_cart_loop_respects |].
    intros res w. apply R_refl.
  - unfold add_to_cart. destruct (get "product_id" form) as [p |];
      [| intros w; apply R_refl].
    destruct (falsy (Some p)); [intros w; apply R_refl |].
    apply respects_bind; [apply get_cart_respects |].
    intros c. apply respects_bind; [| intros u w; apply R_refl].
    intros w. apply R_session.
  - unfold remove_from_cart. destruct (get "product_id" form) as [p |];
      [| intros w; apply R_refl].
    destruct (falsy (Some p)); [intros w; apply R_refl |].
    apply respects_bind; [apply get_cart_respects |].
    intros c. apply respects_bind; [| intros u w; apply R_refl].
    intros w. apply R_session.
  - unfold checkout. apply respects_bind; [apply get_cart_respects |].
    intros c. destruct (is_empty c); [intros w; apply R_refl |].
    apply respects_bind; [intros w; apply R_connection |].
    intros u. apply respects_bind; [| intros u' w; apply R_refl].
    intros w. apply R_session.
Qed.

End Respects.

(** Once the store file exists, no view removes it. *)
Lemma dispatch_keeps_file (now : string) (r : request) (w : world) :
  db_file w <> None -> db_file (snd (dispatch now r w)) <> None.
Proof.
  apply (dispatch_respects
           (fun w w' => db_file w <> None -> db_file w' <> None)); auto.
  intros A body w0 _. unfold with_connection.
  destruct (body _) as [[a | e] c]; discriminate.
Qed.

(** X16.  The hook looks at the file only, not at what is in it: when the
    store file exists without a products table, no request ever creates
    the table, so the catalogue page fails with [OperationalError] before
    and after any request. *)
Theorem missing_table_never_repaired (now : string) (r : request)
    (w : world) :
  db_file w <> None ->
  products (get_connection w) = None ->
  db_file (snd (serve now r w)) <> None /\
  products (get_connection (snd (serve now r w))) = None /\
  fst (serve now GET_index w) = Raise OperationalError /\
  fst (serve now GET_index (snd (serve now r w))) = Raise OperationalError.
Proof.
  intros Hfile Hnone.
  assert (Hindex : forall w0,
            db_file w0 <> None -> products (get_connection w0) = None ->
            fst (serve now GET_index w0) = Raise OperationalError).
  { intros w0 Hf Hn. rewrite serve_run, (ensure_database_existing w0 Hf).
    simpl snd. unfold dispatch, index, fetch_products, bind, with_connection,
      execute, select_products. simpl working. now rewrite Hn. }
  assert (Hkeep : products (get_connection (snd (serve now r w))) = None).
  { rewrite serve_run, (ensure_database_existing w Hfile). simpl snd.
    rewrite <- Hnone.
    apply (dispatch_keeps products now r
             (fun _ => insert_order_keeps_products_table now)). }
  assert (Hfile' : db_file (snd (serve now r w)) <> None).
  { rewrite serve_run, (ensure_database_existing w Hfile). simpl snd.
    now apply dispatch_keeps_file. }
  repeat split; auto.
Qed.

Lemma missing_table_never_repaired_witness :
  let w := mkWorld (Some empty_database) [] in
  fst (serve "2024-01-01 00:00:00" GET_index
         (snd (serve "2024-01-01 00:00:00" POST_checkout w))) =
  Raise OperationalError.
Proof.
  cbv zeta.
  destruct (missing_table_never_repaired "2024-01-01 00:00:00" POST_checkout
              (mkWorld (Some empty_database) []))
    as (_ & _ & _ & H); [discriminate | reflexivity | exact H].
Defined.

(** ** The cart along a run of requests *)

Lemma forall_set {V} (P : string * V -> Prop) (k : string) (v : V)
    (d : dict V) :
  Forall P d -> P (k, v) -> Forall P (set k v d).
Proof.
  intros Hall Hkv. induction Hall as [| [k' v'] rest Hhead Hrest IH]; simpl.
  - constructor; [exact Hkv | constructor].
  - destruct (String.eqb k k'); constructor; assumption.
Qed.

Lemma forall_pop {V} (P : string * V -> Prop) (k : string) (d : dict V) :
  Forall P d -> Forall P (pop k d).
Proof.
  intros Hall. induction Hall as [| [k' v'] rest Hhead Hrest IH]; simpl.
  - constructor.
  - destruct (String.eqb k k'); [assumption | now constructor].
Qed.

Lemma get_in {V} (k : string) (v : V) (d : dict V) :
  get k d = Some v -> In (k, v) d.
Proof.
  induction d as [| [k' v'] rest IH]; simpl; [discriminate |].
  destruct (String.eqb k k') eqn:E.
  - intros [= ->]. apply String.eqb_eq in E. subst. now left.
  - intros H. right. now apply IH.
Qed.

Lemma cart_of_session (w w' : world) :
  session w' = session w -> cart_of w' = cart_of w.
Proof. unfold cart_of. now intros ->. Qed.

Lemma cart_valid_nil : cart_valid [].
Proof. split; constructor. Qed.

Lemma cart_valid_add (p : string) (cart : dict Z) :
  p <> "" ->
  cart_valid cart ->
  cart_valid
    (set p (match get p cart with Some q => q | None => 0 end + 1) cart).
Proof.
  intros Hp [Hwf Hall]. split; [now apply wf_set |].
  apply forall_set; [exact Hall |]. simpl. split; [exact Hp |].
  destruct (get p cart) as [q |] eqn:Hq; [| lia].
  apply get_in in Hq. rewrite Forall_forall in Hall.
  apply Hall in Hq. simpl in Hq. lia.
Qed.

Lemma cart_valid_remove (p : string) (cart : dict Z) :
  cart_valid cart -> cart_valid (pop p cart).
Proof.
  intros [Hwf Hall]. split; [now apply wf_pop | now apply forall_pop].
Qed.

Lemma serve_keeps_cart_valid (now : string) (r : request) (w : world) :
  cart_valid (cart_of w) -> cart_valid (cart_of (snd (serve now r w))).
Proof.
  intros Hvalid. rewrite serve_run.
  assert (Hhook : cart_of (snd (ensure_database w)) = cart_of w).
  { apply cart_of_session, ensure_database_keeps_session. }
  rewrite <- Hhook in Hvalid. clear Hhook.
  set (w1 := snd (ensure_database w)) in *.
  destruct r as [| n | | form | form |].
  - now rewrite (cart_of_session w1 _
                   (get_views_keep_session now GET_index eq_refl w1)).
  - now rewrite (cart_of_session w1 _
                   (get_views_keep_session now (GET_product n) eq_refl w1)).
  - now rewrite (cart_of_session w1 _
                   (get_views_keep_session now GET_cart eq_refl w1)).
  - simpl dispatch. destruct (falsy (get "product_id" form)) eqn:Hfalsy.
    + now rewrite (add_to_cart_falsy form w1 Hfalsy).
    + destruct (get "product_id" form) as [p |] eqn:Hf; [| discriminate].
      assert (Hp : p <> "") by (intros ->; discriminate).
      rewrite (add_to_cart_cart form p w1 Hf Hp). now apply cart_valid_add.
  - simpl dispatch. destruct (falsy (get "product_id" form)) eqn:Hfalsy.
    + now rewrite (remove_from_cart_falsy form w1 Hfalsy).
    + destruct (get "product_id" form) as [p |] eqn:Hf; [| discriminate].
      assert (Hp : p <> "") by (intros ->; discriminate).
      rewrite (remove_from_cart_cart form p w1 Hf Hp).
      now apply cart_valid_remove.
  - simpl dispatch. destruct (checkout_session now w1) as [H | H].
    + now rewrite (cart_of_session w1 _ H).
    + unfold cart_of at 1. rewrite H, get_pop_eq. apply cart_valid_nil.
Qed.

Lemma next_request_keeps_cart_valid (w : world) :
  cart_valid (cart_of w) -> cart_valid (cart_of (next_request w)).
Proof.
  intros [Hwf Hall]. rewrite cart_of_next_request.
  split; [now apply wf_sort_keys | now apply forall_sort_keys].
Qed.

Lemma serve_all_invariant (requests : list (string * request)) :
  forall w,
    cart_valid (cart_of w) -> store_ready w = true ->
    cart_valid (cart_of (serve_all requests w)) /\
    store_ready (serve_all requests w) = true.
Proof.
  induction requests as [| [now r] rest IH]; intros w Hcart Hstore.
  - now split.
  - simpl. apply IH.
    + now apply next_request_keeps_cart_valid, serve_keeps_cart_valid.
    + change (store_ready (next_request (snd (serve now r w))))
        with (store_ready (snd (serve now r w))).
      now apply serve_keeps_store_ready.
Qed.

(** X17.  Whatever requests a client sends, starting from no store and an
    empty session, the world stays well formed: the cart has pairwise
    distinct, non-empty keys and positive quantities, and the store, once
    there, has its three tables.  The same holds from any world that is
    well formed in this sense. *)
Theorem worlds_stay_well_formed (requests : list (string * request)) :
  (cart_valid (cart_of (serve_all requests (mkWorld None []))) /\
   store_ready (serve_all requests (mkWorld None [])) = true) /\
  (forall w,
     cart_valid (cart_of w) -> store_ready w = true ->
     cart_valid (cart_of (serve_all requests w)) /\
     store_ready (serve_all requests w) = true).
Proof.
  split; [| apply serve_all_invariant].
  apply serve_all_invariant; [apply cart_valid_nil | reflexivity].
Qed.

Lemma worlds_stay_well_formed_witness :
  let requests :=
    [("2024-01-01 00:00:00", POST_cart_add [("product_id", "abc")]);
     ("2024-01-01 00:00:05", POST_cart_add [("product_id", "2")]);
     ("2024-01-01 00:00:09", POST_cart_add [("product_id", "2")])] in
  cart_of (serve_all requests (mkWorld None [])) = [("2", 2); ("abc", 1)] /\
  cart_valid (cart_of (serve_all requests (mkWorld None []))).
Proof.
  cbv zeta. split; [reflexivity |].
  destruct (worlds_stay_well_formed
              [("2024-01-01 00:00:00", POST_cart_add [("product_id", "abc")]);
               ("2024-01-01 00:00:05", POST_cart_add [("product_id", "2")]);
               ("2024-01-01 00:00:09", POST_cart_add [("product_id", "2")])])
    as [[H _] _].
  exact H.
Defined.

(** ** Initialisation is not destructive *)

(** X18.  [init_db] completes whatever schema it finds without touching
    what is stored: afterwards the file exists with its three tables, the
    orders and order_items tables have the rows they had (none when they
    were missing), and the session is as it was. *)
Theorem init_db_completes_schema (w : world) :
  db_file (snd (init_db w)) <> None /\
  schema_ready (get_connection (snd (init_db w))) = true /\
  order_rows (snd (init_db w)) = order_rows w /\
  order_item_rows (snd (init_db w)) = order_item_rows w /\
  session (snd (init_db w)) = session w.
Proof.
  rewrite init_db_run. simpl snd.
  unfold order_rows, order_item_rows. simpl.
  repeat split; try discriminate; apply table_rows_or_new.
Qed.

(** ** Order ids *)

Lemma largest_rowid_bound {R} (rs : list (Z * R)) (row : Z * R) :
  In row rs -> exists m, largest_rowid rs = Some m /\ fst row <= m.
Proof.
  induction rs as [| r rs IH]; simpl; [tauto |].
  intros [-> | Hin].
  - destruct (largest_rowid rs); eexists; split; try reflexivity; lia.
  - destruct (IH Hin) as (m & -> & Hm). eexists. split; [reflexivity | lia].
Qed.

Lemma next_rowid_fresh {R} (t : table R) (row : Z * R) :
  In row (rows t) -> fst row < next_rowid t.
Proof.
  intros Hin. apply largest_rowid_bound in Hin.
  destruct Hin as (m & Hm & Hle). unfold next_rowid. rewrite Hm. lia.
Qed.

Lemma nodup_snoc (ids : list Z) (i : Z) :
  NoDup ids -> (forall j, In j ids -> j < i) -> NoDup (ids ++ [i]).
Proof.
  intros Hnd Hlt. induction Hnd as [| j ids Hnotin Hnd IH]; simpl.
  - constructor; [simpl; tauto | constructor].
  - constructor.
    + intros Hin. apply in_app_or in Hin. destruct Hin as [Hin | [<- | []]].
      * contradiction.
      * specialize (Hlt i (or_introl eq_refl)). lia.
    + apply IH. intros k Hk. apply Hlt. now right.
Qed.

Lemma checkout_orders_fresh (now : string) (w : world) :
  order_rows (snd (checkout now w)) = order_rows w \/
  exists i,
    (forall row, In row (order_rows w) -> fst row < i) /\
    order_rows (snd (checkout now w)) =
    order_rows w ++ [(i, mkOrderColumns now)].
Proof.
  destruct (checkout_cases now w) as [H | [H | (t & Ht & _ & H)]]; rewrite H.
  - now left.
  - now left.
  - right. exists (next_rowid t). unfold order_rows. simpl. rewrite Ht. simpl.
    split; [| reflexivity].
    intros row Hin. now apply next_rowid_fresh.
Qed.

Lemma serve_orders_fresh (now : string) (r : request) (w : world) :
  order_rows (snd (serve now r w)) = order_rows w \/
  exists i,
    (forall row, In row (order_rows w) -> fst row < i) /\
    order_rows (snd (serve now r w)) =
    order_rows w ++ [(i, mkOrderColumns now)].
Proof.
  rewrite serve_run. rewrite <- (ensure_database_keeps_orders w).
  destruct r as [| n | | form | form |];
    [left | left | left | left | left | apply checkout_orders_fresh];
    apply (dispatch_keeps (fun db => table_rows (orders db)));
    intros; discriminate.
Qed.

(** X19.  Orders get fresh ids: when a request appends an order row, its
    id is larger than every id in the table before, so orders whose ids
    are pairwise distinct stay so under every request. *)
Theorem order_ids_stay_distinct (now : string) (r : request) (w : world) :
  NoDup (map fst (order_rows w)) ->
  NoDup (map fst (order_rows (snd (serve now r w)))) /\
  (forall i c,
     order_rows (snd (serve now r w)) = order_rows w ++ [(i, c)] ->
     forall row, In row (order_rows w) -> fst row < i).
Proof.
  intros Hnd.
  destruct (serve_orders_fresh now r w) as [H | (i & Hfresh & H)]; rewrite H.
  - split; [exact Hnd |].
    intros i c Heq. exfalso.
    apply (f_equal (@List.length _)) in Heq.
    rewrite length_app in Heq. simpl in Heq. lia.
  - split.
    + rewrite map_app. simpl. apply nodup_snoc; [exact Hnd |].
      intros j Hj. apply in_map_iff in Hj. destruct Hj as (row & <- & Hin).
      now apply Hfresh.
    + intros i' c Heq. apply app_inv_head in Heq.
      injection Heq as <- _. exact Hfresh.
Qed.

Lemma order_ids_stay_distinct_witness :
  let w := mkWorld
             (Some (mkDatabase None
                      (Some (mkTable [(4, mkOrderColumns "2023-12-31 23:59:59")]
                               9))
                      None))
             [("cart", PDict [("1", 1)])] in
  map fst (order_rows (snd (serve "2024-01-01 00:00:00" POST_checkout w))) =
    [4; 10] /\
  NoDup (map fst (order_rows (snd (serve "2024-01-01 00:00:00" POST_checkout w)))).
Proof.
  cbv zeta. split; [reflexivity |].
  apply (order_ids_stay_distinct "2024-01-01 00:00:00" POST_checkout
           (mkWorld
              (Some (mkDatabase None
                       (Some (mkTable
                                [(4, mkOrderColumns "2023-12-31 23:59:59")] 9))
                       None))
              [("cart", PDict [("1", 1)])])).
  simpl. constructor; [simpl; tauto | constructor].
Defined.
